(** * Scenario models of the farmer and news-vendor examples

    A shallow embedding of the model-construction code of the repository:
    the [Farmer] classes with their [build_deterministic_model] and
    [build_extensive_form_model] builders, the scenario creators of the
    mpi-sppy drivers and the probability tables of the samplers.

    Numbers.  Python mixes [int] and [float]; both are embedded as exact
    rationals [Q], so [2.5*1.2] is the rational 3 and [1/3] is the rational
    one third.  Equalities between computed numbers are therefore stated
    with [==] (equality of fractions).  Where a statement is about the
    rounding of floats, the two normalizations of the samplers, the code
    is embedded a second time with the rounding of every operation
    written out.

    Pyomo.  A [ConcreteModel] is embedded as the data it is assembled from:
    the index sets of its variable groups, the expression tree of its
    objective and the rows of its constraint families. *)

From Stdlib Require Import QArith Qabs Qround String List Lia Lqa.
From stdpp Require Import base option list sorting gmap strings pretty.
Import ListNotations.

#[local] Open Scope string_scope.
#[local] Open Scope Q_scope.

(** ** Python results: a value or a raised exception (by class name) *)

Inductive result (A : Type) : Type :=
  | Ok (a : A)
  | Raise (exn : string).
Arguments Ok {A} a.
Arguments Raise {A} exn.

#[global] Instance result_ret : MRet result := λ A a, Ok a.
#[global] Instance result_bind : MBind result := λ A B f m,
  match m with
  | Ok a => f a
  | Raise exn => Raise exn
  end.

(** [d[k]] on a dict with string keys. *)
Definition getitem {A : Type} (d : gmap string A) (k : string) : result A :=
  match d !! k with
  | Some v => Ok v
  | None => Raise "KeyError"
  end.

(** Reading a local (or global) name that may not have been bound yet. *)
Definition read_name (exn : string) (v : option Q) : result Q :=
  match v with
  | Some q => Ok q
  | None => Raise exn
  end.

(** ** Pyomo expressions, variables and constraints *)

(** A variable is a member of a variable group: [model.w["good","corn"]]
    is [V "w" ["good"; "corn"]]. *)
Record var : Type := V { group : string; index : list string }.

#[global] Instance var_eq_dec : EqDecision var.
Proof. solve_decision. Defined.

Inductive expr : Type :=
  | Num (q : Q)
  | Var (v : var)
  | Add (a b : expr)
  | Sub (a b : expr)
  | Mul (a b : expr).

(** The value of an expression at an assignment of the variables. *)
Fixpoint eval (rho : var → Q) (e : expr) : Q :=
  match e with
  | Num q => q
  | Var v => rho v
  | Add a b => eval rho a + eval rho b
  | Sub a b => eval rho a - eval rho b
  | Mul a b => eval rho a * eval rho b
  end.

(** Python's [sum] of a generator: starts at [0] and adds from the left. *)
Definition py_sum (terms : list expr) : expr := foldl Add (Num 0) terms.

(** [model.<name>[key]]: a lookup in the group's index set. *)
Definition getvar (name : string) (idx : list (list string))
    (key : list string) : result expr :=
  if decide (key ∈ idx) then Ok (Var (V name key)) else Raise "KeyError".

Inductive sense : Type := Le | Ge.

(** One inequality [lhs <= rhs] or [lhs >= rhs]. *)
Record row : Type := Row { lhs : expr; row_sense : sense; rhs : expr }.

(** A constraint family: a scalar constraint has one row with the empty
    index, an indexed one a row per member of its index set. *)
Record Constraint : Type :=
  Con { con_name : string; con_rows : list (list string * row) }.

Definition scalar (name : string) (r : row) : Constraint := Con name [([], r)].

(** The attributes of a [ConcreteModel] that the builders set.  All three
    variable groups are declared [within=pyo.NonNegativeReals]. *)
Record Model : Type := {
  model_x : list (list string);
  model_w : list (list string);
  model_y : list (list string);
  model_exprs : list (string * expr);
  model_obj : expr;
  model_constraints : list Constraint;
  _mpisppy_probability : option Q
}.

(** Index set of [pyo.Var(A, B)]: the product, first set outermost.  The
    lists are taken as the code passes them; they stand for Pyomo's index
    sets when they have no repeated entry (Pyomo keeps one copy of an
    entry given twice), and the statements that count indices assume
    that. *)
Definition product (A B : list string) : list (list string) :=
  a ← A; b ← B; [[a; b]].

Definition singletons (A : list string) : list (list string) :=
  map (λ a, [a]) A.

(** *** Meaning of a model *)

Definition Qsum (l : list Q) : Q := foldr Qplus 0 l.

Definition row_holds (rho : var → Q) (r : row) : Prop :=
  match row_sense r with
  | Le => eval rho (lhs r) <= eval rho (rhs r)
  | Ge => eval rho (lhs r) >= eval rho (rhs r)
  end.

Definition model_vars (m : Model) : list var :=
  map (V "x") (model_x m) ++ map (V "w") (model_w m) ++ map (V "y") (model_y m).

Definition model_rows (m : Model) : list (list string * row) :=
  c ← model_constraints m; con_rows c.

(** The feasible region: every declared variable is non-negative and every
    row of every constraint family holds. *)
Definition feasible (m : Model) (rho : var → Q) : Prop :=
  Forall (λ v, 0 <= rho v) (model_vars m) ∧
  Forall (λ ir, row_holds rho ir.2) (model_rows m).

(** Rows carrying an index (scenario-indexed in the extensive form) and
    rows of scalar constraints. *)
Definition indexed_rows (m : Model) : list (list string * row) :=
  filter (λ ir, ir.1 ≠ []) (model_rows m).
Definition scalar_rows (m : Model) : list (list string * row) :=
  filter (λ ir, ir.1 = []) (model_rows m).

(** Renaming of the variables of an expression. *)
Fixpoint rename (f : var → var) (e : expr) : expr :=
  match e with
  | Num q => Num q
  | Var v => Var (f v)
  | Add a b => Add (rename f a) (rename f b)
  | Sub a b => Sub (rename f a) (rename f b)
  | Mul a b => Mul (rename f a) (rename f b)
  end.

Definition rename_row (f : var → var) (r : row) : row :=
  Row (rename f (lhs r)) (row_sense r) (rename f (rhs r)).

(** ** The yield multiplier of a weather label

    The three consecutive [if] statements of the constructors: each one
    rebinds [predicted_yield] when its label matches, and none of them
    binds it for any other label. *)
Definition predict (weather : string) (predicted_yield : option Q) : option Q :=
  let predicted_yield :=
    if decide (weather = "good") then Some 1.2 else predicted_yield in
  let predicted_yield :=
    if decide (weather = "fair") then Some 1 else predicted_yield in
  if decide (weather = "bad") then Some 0.8 else predicted_yield.

Definition recognized (weather : string) : bool :=
  bool_decide (weather = "good") || bool_decide (weather = "fair")
  || bool_decide (weather = "bad").

(** The dict literal [{"wheat":2.5*p, "corn":3*p, "beets":20*p}]. *)
Definition yield_dict (predicted_yield : Q) : gmap string Q :=
  <["wheat" := 2.5 * predicted_yield]>
    (<["corn" := 3 * predicted_yield]>
       (<["beets" := 20 * predicted_yield]> ∅)).

(** ** examples/farmer-extensive-form.py *)

Module FarmerExtensiveForm.

(** The argument of the constructor: one label or a list of labels. *)
Inductive weather_types : Type :=
  | WStr (weather : string)
  | WList (weathers : list string).

(** [self.crop_yield] is a dict of yields for one label and a dict of
    such dicts, keyed by label, for a list of labels. *)
Inductive yields : Type :=
  | YFlat (d : gmap string Q)
  | YNested (d : gmap string (gmap string Q)).

Record Farmer : Type := {
  weathers : weather_types;
  crop_yield : yields;
  total_acres : Q;
  planting_cost : gmap string Q;
  planting_crops : list string;
  selling_price : gmap string Q;
  selling_crops : list string;
  min_requirement : gmap string Q;
  purchase_price : gmap string Q;
  purchasing_crops : list string;
  required_crops : list string;
  beets_quota : Q;
  deterministic_model : option Model;
  extensive_form_model : option Model
}.

(** The loop of the list branch; [predicted_yield] is a local of the
    constructor and keeps its value from one iteration to the next. *)
Fixpoint crop_yield_scenarios (weather_types : list string)
    (predicted_yield : option Q) (acc : gmap string (gmap string Q))
    : result (gmap string (gmap string Q)) :=
  match weather_types with
  | [] => Ok acc
  | weather :: rest =>
      let predicted_yield := predict weather predicted_yield in
      p ← read_name "UnboundLocalError" predicted_yield;
      crop_yield_scenarios rest predicted_yield
        (<[weather := yield_dict p]> acc)
  end.

Definition __init__ (weather_types : weather_types) : result Farmer :=
  crop_yield ←
    match weather_types with
    | WStr weather =>
        p ← read_name "UnboundLocalError" (predict weather None);
        Ok (YFlat (yield_dict p))
    | WList l =>
        d ← crop_yield_scenarios l None ∅;
        Ok (YNested d)
    end;
  let purchasing_crops := ["wheat"; "corn"] in
  Ok {| weathers := weather_types;
        crop_yield := crop_yield;
        total_acres := 500;
        planting_cost :=
          <["wheat" := 150]> (<["corn" := 230]> (<["beets" := 260]> ∅));
        planting_crops := ["wheat"; "corn"; "beets"];
        selling_price :=
          <["wheat" := 170]> (<["corn" := 150]>
            (<["beets_favorable" := 36]> (<["beets_unfavorable" := 10]> ∅)));
        selling_crops :=
          ["wheat"; "corn"; "beets_favorable"; "beets_unfavorable"];
        min_requirement := <["wheat" := 200]> (<["corn" := 240]> ∅);
        purchase_price := <["wheat" := 238]> (<["corn" := 210]> ∅);
        purchasing_crops := purchasing_crops;
        required_crops := purchasing_crops;
        beets_quota := 6000;
        deterministic_model := None;
        extensive_form_model := None |}.

(** [self.crop_yield[crop]] used as a number. *)
Definition yield_of (cy : yields) (crop : string) : result Q :=
  match cy with
  | YFlat d => getitem d crop
  | YNested d => _ ← getitem d crop; Raise "TypeError"
  end.

(** [self.crop_yield[weather][crop]]. *)
Definition yield_in (cy : yields) (weather crop : string) : result Q :=
  match cy with
  | YNested d => s ← getitem d weather; getitem s crop
  | YFlat d => _ ← getitem d weather; Raise "TypeError"
  end.

(** Both builders are embedded for an object with at least one plantable
    crop, as the constructor makes it: over an empty [planting_crops]
    Python's [sum] is the number 0 and the rule of the total acreage
    compares two numbers; what Pyomo makes of the resulting bool is not
    part of this source. *)
Definition build_deterministic_model (self : Farmer) : result Farmer :=
  let x := singletons (planting_crops self) in
  let w := singletons (selling_crops self) in
  let y := singletons (purchasing_crops self) in
  planting ← mapM (λ planted_crop,
      v ← getvar "x" x [planted_crop];
      c ← getitem (planting_cost self) planted_crop;
      Ok (Mul v (Num c))) (planting_crops self);
  selling ← mapM (λ sold_crop,
      v ← getvar "w" w [sold_crop];
      c ← getitem (selling_price self) sold_crop;
      Ok (Mul v (Num c))) (selling_crops self);
  purchasing ← mapM (λ purchased_crop,
      v ← getvar "y" y [purchased_crop];
      c ← getitem (purchase_price self) purchased_crop;
      Ok (Mul v (Num c))) (purchasing_crops self);
  let obj := Add (Sub (py_sum planting) (py_sum selling)) (py_sum purchasing) in
  acres ← mapM (λ planted_crop, getvar "x" x [planted_crop])
               (planting_crops self);
  let total_acreage_allowed :=
    scalar "total_acreage_allowed"
           (Row (py_sum acres) Le (Num (total_acres self))) in
  minimum_requirement ← mapM (λ required_crop,
      xv ← getvar "x" x [required_crop];
      yld ← yield_of (crop_yield self) required_crop;
      yv ← getvar "y" y [required_crop];
      wv ← getvar "w" w [required_crop];
      req ← getitem (min_requirement self) required_crop;
      Ok ([required_crop],
          Row (Sub (Add (Mul xv (Num yld)) yv) wv) Ge (Num req)))
    (required_crops self);
  wf ← getvar "w" w ["beets_favorable"];
  wu ← getvar "w" w ["beets_unfavorable"];
  yld ← yield_of (crop_yield self) "beets";
  xb ← getvar "x" x ["beets"];
  let sugar_beet_mass_balance :=
    scalar "sugar_beet_mass_balance"
           (Row (Add wf wu) Le (Mul (Num yld) xb)) in
  wq ← getvar "w" w ["beets_favorable"];
  let sugar_beet_quota :=
    scalar "sugar_beet_quota" (Row wq Le (Num (beets_quota self))) in
  let model :=
    {| model_x := x; model_w := w; model_y := y;
       model_exprs := [];
       model_obj := obj;
       model_constraints :=
         [ total_acreage_allowed;
           Con "minimum_requirement" minimum_requirement;
           sugar_beet_mass_balance;
           sugar_beet_quota ];
       _mpisppy_probability := None |} in
  Ok {| weathers := weathers self;
        crop_yield := crop_yield self;
        total_acres := total_acres self;
        planting_cost := planting_cost self;
        planting_crops := planting_crops self;
        selling_price := selling_price self;
        selling_crops := selling_crops self;
        min_requirement := min_requirement self;
        purchase_price := purchase_price self;
        purchasing_crops := purchasing_crops self;
        required_crops := required_crops self;
        beets_quota := beets_quota self;
        deterministic_model := Some model;
        extensive_form_model := extensive_form_model self |}.

(** The pairs enumerated by [for a in A for b in B]. *)
Definition pairs (A B : list string) : list (string * string) :=
  a ← A; b ← B; [(a, b)].

(** The scenario index set [self.weathers] of the extensive form.  Only a
    list of labels is a scenario index set here; what Pyomo makes of a
    single string is not part of this source, and the embedding stops
    there with an exception. *)
Definition scenario_set (w : weather_types) : result (list string) :=
  match w with
  | WList l => Ok l
  | WStr _ => Raise "TypeError"
  end.

Definition build_extensive_form_model (self : Farmer) : result Farmer :=
  ws ← scenario_set (weathers self);
  let x := singletons (planting_crops self) in
  let w := product ws (selling_crops self) in
  let y := product ws (purchasing_crops self) in
  planting ← mapM (λ planted_crop,
      v ← getvar "x" x [planted_crop];
      c ← getitem (planting_cost self) planted_crop;
      Ok (Mul v (Num c))) (planting_crops self);
  selling ← mapM (λ '(sold_crop, weather),
      v ← getvar "w" w [weather; sold_crop];
      c ← getitem (selling_price self) sold_crop;
      Ok (Mul v (Num c))) (pairs (selling_crops self) ws);
  purchasing ← mapM (λ '(purchased_crop, weather),
      v ← getvar "y" y [weather; purchased_crop];
      c ← getitem (purchase_price self) purchased_crop;
      Ok (Mul v (Num c))) (pairs (purchasing_crops self) ws);
  let obj :=
    Add (Add (py_sum planting) (Mul (Num (-1/3)) (py_sum selling)))
        (Mul (Num (1/3)) (py_sum purchasing)) in
  acres ← mapM (λ planted_crop, getvar "x" x [planted_crop])
               (planting_crops self);
  let total_acreage_allowed :=
    scalar "total_acreage_allowed"
           (Row (py_sum acres) Le (Num (total_acres self))) in
  minimum_requirement ← mapM (λ '(weather, required_crop),
      xv ← getvar "x" x [required_crop];
      yld ← yield_in (crop_yield self) weather required_crop;
      yv ← getvar "y" y [weather; required_crop];
      wv ← getvar "w" w [weather; required_crop];
      req ← getitem (min_requirement self) required_crop;
      Ok ([weather; required_crop],
          Row (Sub (Add (Mul xv (Num yld)) yv) wv) Ge (Num req)))
    (pairs ws (required_crops self));
  sugar_beet_mass_balance ← mapM (λ weather,
      wf ← getvar "w" w [weather; "beets_favorable"];
      wu ← getvar "w" w [weather; "beets_unfavorable"];
      yld ← yield_in (crop_yield self) weather "beets";
      xb ← getvar "x" x ["beets"];
      Ok ([weather], Row (Add wf wu) Le (Mul (Num yld) xb))) ws;
  sugar_beet_quota ← mapM (λ weather,
      wq ← getvar "w" w [weather; "beets_favorable"];
      Ok ([weather], Row wq Le (Num (beets_quota self)))) ws;
  let model :=
    {| model_x := x; model_w := w; model_y := y;
       model_exprs := [];
       model_obj := obj;
       model_constraints :=
         [ total_acreage_allowed;
           Con "minimum_requirement" minimum_requirement;
           Con "sugar_beet_mass_balance" sugar_beet_mass_balance;
           Con "sugar_beet_quota" sugar_beet_quota ];
       _mpisppy_probability := None |} in
  Ok {| weathers := weathers self;
        crop_yield := crop_yield self;
        total_acres := total_acres self;
        planting_cost := planting_cost self;
        planting_crops := planting_crops self;
        selling_price := selling_price self;
        selling_crops := selling_crops self;
        min_requirement := min_requirement self;
        purchase_price := purchase_price self;
        purchasing_crops := purchasing_crops self;
        required_crops := required_crops self;
        beets_quota := beets_quota self;
        deterministic_model := deterministic_model self;
        extensive_form_model := Some model |}.

(** The script of the file: [Farmer(["good","fair","bad"])] followed by
    [build_extensive_form_model()]. *)
Definition main : result Farmer :=
  farmer ← __init__ (WList ["good"; "fair"; "bad"]);
  build_extensive_form_model farmer.

End FarmerExtensiveForm.

(** ** mpi-sppy/farmer-3-scenarios.py *)

Module Farmer3Scenarios.

Record Farmer : Type := {
  crop_yield : gmap string Q;
  total_acres : Q;
  planting_cost : gmap string Q;
  planting_crops : list string;
  selling_price : gmap string Q;
  selling_crops : list string;
  min_requirement : gmap string Q;
  purchase_price : gmap string Q;
  purchasing_crops : list string;
  required_crops : list string;
  beets_quota : Q
}.

(** The module-level name [predicted_yield], declared [global] in the
    constructor: unbound until a recognized label has been seen. *)
Definition globals : Type := option Q.

(** The constructor writes the global and reads it back; it returns the
    new object together with the globals it leaves behind. *)
Definition __init__ (weather_type : string) (predicted_yield : globals)
    : result (Farmer * globals) :=
  let predicted_yield := predict weather_type predicted_yield in
  p ← read_name "NameError" predicted_yield;
  let purchasing_crops := ["wheat"; "corn"] in
  Ok ({| crop_yield := yield_dict p;
         total_acres := 500;
         planting_cost :=
           <["wheat" := 150]> (<["corn" := 230]> (<["beets" := 260]> ∅));
         planting_crops := ["wheat"; "corn"; "beets"];
         selling_price :=
           <["wheat" := 170]> (<["corn" := 150]>
             (<["beets_favorable" := 36]> (<["beets_unfavorable" := 10]> ∅)));
         selling_crops :=
           ["wheat"; "corn"; "beets_favorable"; "beets_unfavorable"];
         min_requirement := <["wheat" := 200]> (<["corn" := 240]> ∅);
         purchase_price := <["wheat" := 238]> (<["corn" := 210]> ∅);
         purchasing_crops := purchasing_crops;
         required_crops := purchasing_crops;
         beets_quota := 6000 |}, predicted_yield).

(** The rows are those of a scenario with at least one plantable crop, as
    every constructor makes it: over an empty [planting_crops] Python's
    [sum] is the number 0 and the rule of the total acreage compares two
    numbers; what Pyomo makes of the resulting bool is not part of this
    source. *)
Definition build_deterministic_model (scenario : Farmer) : result Model :=
  let x := singletons (planting_crops scenario) in
  let w := singletons (selling_crops scenario) in
  let y := singletons (purchasing_crops scenario) in
  planting ← mapM (λ planted_crop,
      v ← getvar "x" x [planted_crop];
      c ← getitem (planting_cost scenario) planted_crop;
      Ok (Mul v (Num c))) (planting_crops scenario);
  let model_planting_cost := py_sum planting in
  selling ← mapM (λ sold_crop,
      v ← getvar "w" w [sold_crop];
      c ← getitem (selling_price scenario) sold_crop;
      Ok (Mul v (Num c))) (selling_crops scenario);
  let model_selling_cost := py_sum selling in
  purchasing ← mapM (λ purchased_crop,
      v ← getvar "y" y [purchased_crop];
      c ← getitem (purchase_price scenario) purchased_crop;
      Ok (Mul v (Num c))) (purchasing_crops scenario);
  let model_puchasing_cost := py_sum purchasing in
  let obj :=
    Add (Sub model_planting_cost model_selling_cost) model_puchasing_cost in
  acres ← mapM (λ planted_crop, getvar "x" x [planted_crop])
               (planting_crops scenario);
  let total_acreage_allowed :=
    scalar "total_acreage_allowed"
           (Row (py_sum acres) Le (Num (total_acres scenario))) in
  minimum_requirement ← mapM (λ required_crop,
      xv ← getvar "x" x [required_crop];
      yld ← getitem (crop_yield scenario) required_crop;
      yv ← getvar "y" y [required_crop];
      wv ← getvar "w" w [required_crop];
      req ← getitem (min_requirement scenario) required_crop;
      Ok ([required_crop],
          Row (Sub (Add (Mul xv (Num yld)) yv) wv) Ge (Num req)))
    (required_crops scenario);
  wf ← getvar "w" w ["beets_favorable"];
  wu ← getvar "w" w ["beets_unfavorable"];
  yld ← getitem (crop_yield scenario) "beets";
  xb ← getvar "x" x ["beets"];
  let sugar_beet_mass_balance :=
    scalar "sugar_beet_mass_balance"
           (Row (Add wf wu) Le (Mul (Num yld) xb)) in
  wq ← getvar "w" w ["beets_favorable"];
  let sugar_beet_quota :=
    scalar "sugar_beet_quota" (Row wq Le (Num (beets_quota scenario))) in
  Ok {| model_x := x; model_w := w; model_y := y;
        model_exprs :=
          [ ("planting_cost", model_planting_cost);
            ("selling_cost", model_selling_cost);
            ("puchasing_cost", model_puchasing_cost) ];
        model_obj := obj;
        model_constraints :=
          [ total_acreage_allowed;
            Con "minimum_requirement" minimum_requirement;
            sugar_beet_mass_balance;
            sugar_beet_quota ];
        _mpisppy_probability := None |}.

(** [sputils.attach_root_node] belongs to mpi-sppy and is not embedded;
    the creator's own effect on the model is the probability it sets. *)
Definition scenario_creator (scenario : string) (g : globals)
    : result (Model * globals) :=
  '(farmer_scenario, g) ← __init__ scenario g;
  model ← build_deterministic_model farmer_scenario;
  Ok ({| model_x := model_x model; model_w := model_w model;
         model_y := model_y model;
         model_exprs := model_exprs model;
         model_obj := model_obj model;
         model_constraints := model_constraints model;
         _mpisppy_probability := Some (1.0 / 3) |}, g).

End Farmer3Scenarios.

(** ** mpi-sppy/farmer-n-scenarios-PH.py *)

#[global] Instance Qle_dec (a b : Q) : Decision (a <= b).
Proof.
  destruct (Qlt_le_dec b a) as [Hlt | Hle].
  - right. apply Qlt_not_le, Hlt.
  - left. exact Hle.
Defined.

#[global] Instance Qle_transitive : Transitive Qle := Qle_trans.

#[global] Instance Qle_total : Total Qle.
Proof.
  intros a b. destruct (Qlt_le_dec a b) as [H | H].
  - left. apply Qlt_le_weak, H.
  - right. exact H.
Qed.

(** [l[i]] on a Python list. *)
Definition list_index {A : Type} (l : list A) (i : nat) : result A :=
  match l !! i with
  | Some a => Ok a
  | None => Raise "IndexError"
  end.

(** [d[i]] on a dict whose keys are [0 .. n-1], kept as the list of its
    values in key order. *)
Definition range_dict_get {A : Type} (d : list A) (i : nat) : result A :=
  match d !! i with
  | Some a => Ok a
  | None => Raise "KeyError"
  end.

(** [l[i]] on a Python list for an integer [i] of either sign: a negative
    index counts from the end of the list. *)
Definition py_index {A : Type} (l : list A) (i : Z) : result A :=
  let k := if decide (i < 0)%Z then (Z.of_nat (length l) + i)%Z else i in
  if decide (k < 0)%Z then Raise "IndexError"
  else list_index l (Z.to_nat k).

(** [d[i]] on the same kind of dict for an integer [i] of either sign: a
    dict has no negative indexing, a key that is not there is a
    [KeyError]. *)
Definition range_dict_get_int {A : Type} (d : list A) (i : Z) : result A :=
  if decide (i < 0)%Z then Raise "KeyError"
  else range_dict_get d (Z.to_nat i).

(** [numpy.linspace(start, stop, num)] as numpy documents it: [num]
    evenly spaced samples over the closed interval, the last one being
    [stop] itself. *)
Definition linspace (start stop : Q) (num : nat) : list Q :=
  match num with
  | O => []
  | S O => [start]
  | S div =>
      map (λ i : nat, inject_Z (Z.of_nat i)
                      * ((stop - start) / inject_Z (Z.of_nat div)) + start)
          (seq 0 div) ++ [stop]
  end.

(** Python's [sorted] on numbers. *)
Definition sorted (l : list Q) : list Q := merge_sort Qle l.

Module FarmerNScenariosPH.

Record Farmer : Type := {
  probability : Q;
  crop_yield : gmap string Q;
  total_acres : Q;
  planting_cost : gmap string Q;
  planting_crops : list string;
  selling_price : gmap string Q;
  selling_crops : list string;
  min_requirement : gmap string Q;
  purchase_price : gmap string Q;
  purchasing_crops : list string;
  required_crops : list string;
  beets_quota : Q
}.

Definition __init__ (predicted_yield probability : Q) : Farmer :=
  let purchasing_crops := ["wheat"; "corn"] in
  {| probability := probability;
     crop_yield := yield_dict predicted_yield;
     total_acres := 500;
     planting_cost :=
       <["wheat" := 150]> (<["corn" := 230]> (<["beets" := 260]> ∅));
     planting_crops := ["wheat"; "corn"; "beets"];
     selling_price :=
       <["wheat" := 170]> (<["corn" := 150]>
         (<["beets_favorable" := 36]> (<["beets_unfavorable" := 10]> ∅)));
     selling_crops :=
       ["wheat"; "corn"; "beets_favorable"; "beets_unfavorable"];
     min_requirement := <["wheat" := 200]> (<["corn" := 240]> ∅);
     purchase_price := <["wheat" := 238]> (<["corn" := 210]> ∅);
     purchasing_crops := purchasing_crops;
     required_crops := purchasing_crops;
     beets_quota := 6000 |}.

(** The attributes the builder reads.  The builder of this file is, line
    for line, the one of farmer-3-scenarios.py. *)
Definition scenario_attributes (s : Farmer) : Farmer3Scenarios.Farmer :=
  {| Farmer3Scenarios.crop_yield := crop_yield s;
     Farmer3Scenarios.total_acres := total_acres s;
     Farmer3Scenarios.planting_cost := planting_cost s;
     Farmer3Scenarios.planting_crops := planting_crops s;
     Farmer3Scenarios.selling_price := selling_price s;
     Farmer3Scenarios.selling_crops := selling_crops s;
     Farmer3Scenarios.min_requirement := min_requirement s;
     Farmer3Scenarios.purchase_price := purchase_price s;
     Farmer3Scenarios.purchasing_crops := purchasing_crops s;
     Farmer3Scenarios.required_crops := required_crops s;
     Farmer3Scenarios.beets_quota := beets_quota s |}.

Definition build_deterministic_model (scenario : Farmer) : result Model :=
  Farmer3Scenarios.build_deterministic_model (scenario_attributes scenario).

Section Sampler.

(** [ss.norm.cdf(x, loc=mu, scale=sigma)] as a function of [x], and the
    draw of [ss.truncnorm.rvs(a, b)]: both belong to scipy. *)
Variable norm_cdf : Q → Q.
Variable truncnorm_rvs : Q → Q → Q.

Definition mu : Q := 1.
Definition sigma : Q := 0.1.
Definition z : Q := 2.576.

Definition bins (num_scenarios : nat) : list Q :=
  sorted (linspace (mu + z * sigma) (mu - z * sigma) (num_scenarios + 1)).

(** The loop over [range(len(bins)-1)]: it fills [cdfs] and accumulates
    [total]. *)
Fixpoint bin_loop (bins : list Q) (range : list nat) (cdfs : list Q)
    (total : Q) : result (list Q * Q) :=
  match range with
  | [] => Ok (cdfs, total)
  | bin_num :: rest =>
      a ← list_index bins bin_num;
      let cdf_a := norm_cdf a in
      b ← list_index bins (bin_num + 1);
      let cdf_b := norm_cdf b in
      bin_loop bins rest (cdfs ++ [cdf_b - cdf_a]) (total + (cdf_b - cdf_a))
  end.

(** The dict [probabilities] of [scenario_creator]. *)
Definition probabilities (num_scenarios : nat) : result (list Q) :=
  let bins := bins num_scenarios in
  '(cdfs, total) ← bin_loop bins (seq 0 (length bins - 1)) [] 0;
  mapM (λ bin_num, c ← range_dict_get cdfs bin_num; Ok (c / total))
       (seq 0 (length bins - 1)).

(** [scenario_num] is the integer [int(scenario)]; the module-level
    [num_scenarios] is a parameter. *)
Definition scenario_creator (num_scenarios : nat) (scenario_num : Z)
    : result Model :=
  let bins := bins num_scenarios in
  a ← py_index bins scenario_num;
  b ← py_index bins (scenario_num + 1);
  let predicted_yield := truncnorm_rvs a b in
  probabilities ← probabilities num_scenarios;
  p ← range_dict_get_int probabilities scenario_num;
  let farmer_scenario := __init__ predicted_yield p in
  model ← build_deterministic_model farmer_scenario;
  p ← range_dict_get_int probabilities scenario_num;
  Ok {| model_x := model_x model; model_w := model_w model;
        model_y := model_y model;
        model_exprs := model_exprs model;
        model_obj := model_obj model;
        model_constraints := model_constraints model;
        _mpisppy_probability := Some p |}.

End Sampler.

End FarmerNScenariosPH.

(** ** examples/news-vendor/news-vendor-sampling.py *)

(** [numpy.around] on one number: to the nearest integer, halves to the
    even neighbour. *)
Definition around (v : Q) : Z :=
  let f := Qfloor v in
  match Qcompare (v - inject_Z f) 0.5 with
  | Lt => f
  | Gt => (f + 1)%Z
  | Eq => if Z.even f then f else (f + 1)%Z
  end.

Module NewsVendorSampling.

Record Vendor : Type := {
  c : Q;
  q : Q;
  r : Q;
  num_scenarios : nat;
  demand : list Z;
  p : gmap Z Q
}.

(** [sorted(set(demand))]. *)
Definition distinct_sorted (demand : list Z) : list Z :=
  merge_sort Z.le (elements (list_to_set demand : gset Z)).

(** The loop that fills [self.p]. *)
Fixpoint fill_p (keys : list Z) (demand : list Z) (num_scenarios : nat)
    (p : gmap Z Q) : result (gmap Z Q) :=
  match keys with
  | [] => Ok p
  | d :: rest =>
      if decide (num_scenarios = 0%nat) then Raise "ZeroDivisionError"
      else
        let count := count_occ Z.eq_dec demand d in
        fill_p rest demand num_scenarios
          (<[d := inject_Z (Z.of_nat count) / inject_Z (Z.of_nat num_scenarios)]> p)
  end.

(** [uniform] is the outcome of [np.random.uniform(low=50, high=150,
    size=num_scenarios)], an array of [num_scenarios] numbers. *)
Definition __init__ (num_scenarios : nat) (uniform : list Q) : result Vendor :=
  let demand := map around uniform in
  p ← fill_p (distinct_sorted demand) demand num_scenarios ∅;
  Ok {| c := 10; q := 25; r := 5;
        num_scenarios := num_scenarios;
        demand := demand;
        p := p |}.


End NewsVendorSampling.

(** ** Reading the embedded models *)

(** The fixed multiplier of a recognized label, as the specification lists
    them: good 1.2, fair 1.0, bad 0.8. *)
Definition label_multiplier (weather : string) : Q :=
  if decide (weather = "good") then 1.2
  else if decide (weather = "fair") then 1
  else 0.8.

(** The variable of the single-scenario model that a variable of the
    deterministic model stands for in scenario [s] of the extensive form:
    first-stage variables are shared, second-stage ones carry the scenario
    index in front. *)
Definition lift (s : string) (v : var) : var :=
  if decide (group v = "x") then v else V (group v) (s :: index v).

(** Value of a dict entry read as a coefficient. *)
Definition coefficient (d : gmap string Q) (k : string) : Q := default 0 (d !! k).

(** The three linear terms of the objective at an assignment.  [pre] is
    the scenario prefix of the second-stage indices: empty in a
    deterministic model, [[s]] for scenario [s] of the extensive form. *)
Definition planting_value (cost : gmap string Q) (crops : list string)
    (rho : var → Q) : Q :=
  Qsum (map (λ crop, rho (V "x" [crop]) * coefficient cost crop) crops).

Definition selling_value (price : gmap string Q) (crops : list string)
    (pre : list string) (rho : var → Q) : Q :=
  Qsum (map (λ crop, rho (V "w" (pre ++ [crop])) * coefficient price crop) crops).

Definition purchasing_value (price : gmap string Q) (crops : list string)
    (pre : list string) (rho : var → Q) : Q :=
  Qsum (map (λ crop, rho (V "y" (pre ++ [crop])) * coefficient price crop) crops).

(** ** Concrete objects used in the examples *)

(** An assignment that is [v] on one variable and [0] elsewhere. *)
Definition only (x : var) (v : Q) : var → Q :=
  λ y, if decide (y = x) then v else 0.

(** [m] can only raise exceptions of the classes in [P]. *)
Definition raises_only {A : Type} (P : string → Prop) (m : result A) : Prop :=
  ∀ exn, m = Raise exn → P exn.

(** The two exception classes the builders can stop with. *)
Definition lookup_error (exn : string) : Prop :=
  exn = "KeyError" ∨ exn = "TypeError".

(** Two [Farmer] objects carry the same scenario and problem template. *)
Definition same_template (a b : FarmerExtensiveForm.Farmer) : Prop :=
  FarmerExtensiveForm.weathers a = FarmerExtensiveForm.weathers b ∧
  FarmerExtensiveForm.crop_yield a = FarmerExtensiveForm.crop_yield b ∧
  FarmerExtensiveForm.total_acres a = FarmerExtensiveForm.total_acres b ∧
  FarmerExtensiveForm.planting_cost a = FarmerExtensiveForm.planting_cost b ∧
  FarmerExtensiveForm.planting_crops a = FarmerExtensiveForm.planting_crops b ∧
  FarmerExtensiveForm.selling_price a = FarmerExtensiveForm.selling_price b ∧
  FarmerExtensiveForm.selling_crops a = FarmerExtensiveForm.selling_crops b ∧
  FarmerExtensiveForm.min_requirement a = FarmerExtensiveForm.min_requirement b ∧
  FarmerExtensiveForm.purchase_price a = FarmerExtensiveForm.purchase_price b ∧
  FarmerExtensiveForm.purchasing_crops a = FarmerExtensiveForm.purchasing_crops b ∧
  FarmerExtensiveForm.required_crops a = FarmerExtensiveForm.required_crops b ∧
  FarmerExtensiveForm.beets_quota a = FarmerExtensiveForm.beets_quota b.

(** *** The deterministic model of one scenario, read off the attributes *)

(** Objective: planting cost minus selling revenue plus purchasing cost. *)
Definition deterministic_objective (s : Farmer3Scenarios.Farmer)
    (rho : var → Q) : Q :=
  planting_value (Farmer3Scenarios.planting_cost s)
                 (Farmer3Scenarios.planting_crops s) rho
  - selling_value (Farmer3Scenarios.selling_price s)
                  (Farmer3Scenarios.selling_crops s) [] rho
  + purchasing_value (Farmer3Scenarios.purchase_price s)
                     (Farmer3Scenarios.purchasing_crops s) [] rho.

(** The four constraint families: total acreage, minimum requirement per
    required crop, sugar-beet mass balance, sugar-beet quota. *)
Definition deterministic_constraints (s : Farmer3Scenarios.Farmer)
    (rho : var → Q) : Prop :=
  Qsum (map (λ crop, rho (V "x" [crop])) (Farmer3Scenarios.planting_crops s))
    <= Farmer3Scenarios.total_acres s ∧
  (∀ crop, crop ∈ Farmer3Scenarios.required_crops s →
     rho (V "x" [crop]) * coefficient (Farmer3Scenarios.crop_yield s) crop
     + rho (V "y" [crop]) - rho (V "w" [crop])
     >= coefficient (Farmer3Scenarios.min_requirement s) crop) ∧
  rho (V "w" ["beets_favorable"]) + rho (V "w" ["beets_unfavorable"])
    <= coefficient (Farmer3Scenarios.crop_yield s) "beets" * rho (V "x" ["beets"]) ∧
  rho (V "w" ["beets_favorable"]) <= Farmer3Scenarios.beets_quota s.

(** The attributes of a single-label [Farmer] of the extensive-form file
    that its deterministic builder reads. *)
Definition flat_attributes (self : FarmerExtensiveForm.Farmer)
    : Farmer3Scenarios.Farmer :=
  {| Farmer3Scenarios.crop_yield :=
       match FarmerExtensiveForm.crop_yield self with
       | FarmerExtensiveForm.YFlat d => d
       | FarmerExtensiveForm.YNested _ => ∅
       end;
     Farmer3Scenarios.total_acres := FarmerExtensiveForm.total_acres self;
     Farmer3Scenarios.planting_cost := FarmerExtensiveForm.planting_cost self;
     Farmer3Scenarios.planting_crops := FarmerExtensiveForm.planting_crops self;
     Farmer3Scenarios.selling_price := FarmerExtensiveForm.selling_price self;
     Farmer3Scenarios.selling_crops := FarmerExtensiveForm.selling_crops self;
     Farmer3Scenarios.min_requirement := FarmerExtensiveForm.min_requirement self;
     Farmer3Scenarios.purchase_price := FarmerExtensiveForm.purchase_price self;
     Farmer3Scenarios.purchasing_crops := FarmerExtensiveForm.purchasing_crops self;
     Farmer3Scenarios.required_crops := FarmerExtensiveForm.required_crops self;
     Farmer3Scenarios.beets_quota := FarmerExtensiveForm.beets_quota self |}.

Definition family_names : list string :=
  [ "total_acreage_allowed"; "minimum_requirement";
    "sugar_beet_mass_balance"; "sugar_beet_quota" ].

(** [m] is the deterministic model of scenario [s]: the three variable
    groups over the crop lists, the split objective, and exactly the four
    constraint families with their meaning. *)
Definition deterministic_model_of (s : Farmer3Scenarios.Farmer) (m : Model)
    : Prop :=
  model_x m = singletons (Farmer3Scenarios.planting_crops s) ∧
  model_w m = singletons (Farmer3Scenarios.selling_crops s) ∧
  model_y m = singletons (Farmer3Scenarios.purchasing_crops s) ∧
  map con_name (model_constraints m) = family_names ∧
  ∀ rho,
    eval rho (model_obj m) == deterministic_objective s rho ∧
    (Forall (λ ir, row_holds rho ir.2) (model_rows m)
     ↔ deterministic_constraints s rho).

(** *** The expected objective of the specification *)

(** The objective of scenario [s], written over the shared land variables
    and the second-stage variables of [s]. *)
Definition scenario_objective (self : FarmerExtensiveForm.Farmer)
    (rho : var → Q) (s : string) : Q :=
  planting_value (FarmerExtensiveForm.planting_cost self)
                 (FarmerExtensiveForm.planting_crops self) rho
  - selling_value (FarmerExtensiveForm.selling_price self)
                  (FarmerExtensiveForm.selling_crops self) [s] rho
  + purchasing_value (FarmerExtensiveForm.purchase_price self)
                     (FarmerExtensiveForm.purchasing_crops self) [s] rho.

(** The probability-weighted sum of the scenario objectives. *)
Definition expected_objective (self : FarmerExtensiveForm.Farmer)
    (probability : string → Q) (ws : list string) (rho : var → Q) : Q :=
  Qsum (map (λ s, probability s * scenario_objective self rho s) ws).

(** The recourse part of a scenario objective: purchasing cost minus
    selling revenue. *)
Definition recourse_value (self : FarmerExtensiveForm.Farmer)
    (rho : var → Q) (s : string) : Q :=
  purchasing_value (FarmerExtensiveForm.purchase_price self)
                   (FarmerExtensiveForm.purchasing_crops self) [s] rho
  - selling_value (FarmerExtensiveForm.selling_price self)
                  (FarmerExtensiveForm.selling_crops self) [s] rho.

(** Probabilities 1/2, 1/4, 1/4 for good, fair, bad. *)
Definition uneven (s : string) : Q := if decide (s = "good") then 1/2 else 1/4.

(** [m] returns a value. *)
Definition returns {A : Type} (m : result A) : Prop := ∃ a, m = Ok a.

(** *** The samplers *)


(** The attributes of scenario [s] of a multi-scenario [Farmer]: the
    template, with the yields recorded for [s]. *)
Definition scenario_attributes_in (self : FarmerExtensiveForm.Farmer)
    (s : string) : Farmer3Scenarios.Farmer :=
  {| Farmer3Scenarios.crop_yield :=
       match FarmerExtensiveForm.crop_yield self with
       | FarmerExtensiveForm.YNested d => default ∅ (d !! s)
       | FarmerExtensiveForm.YFlat _ => ∅
       end;
     Farmer3Scenarios.total_acres := FarmerExtensiveForm.total_acres self;
     Farmer3Scenarios.planting_cost := FarmerExtensiveForm.planting_cost self;
     Farmer3Scenarios.planting_crops := FarmerExtensiveForm.planting_crops self;
     Farmer3Scenarios.selling_price := FarmerExtensiveForm.selling_price self;
     Farmer3Scenarios.selling_crops := FarmerExtensiveForm.selling_crops self;
     Farmer3Scenarios.min_requirement := FarmerExtensiveForm.min_requirement self;
     Farmer3Scenarios.purchase_price := FarmerExtensiveForm.purchase_price self;
     Farmer3Scenarios.purchasing_crops := FarmerExtensiveForm.purchasing_crops self;
     Farmer3Scenarios.required_crops := FarmerExtensiveForm.required_crops self;
     Farmer3Scenarios.beets_quota := FarmerExtensiveForm.beets_quota self |}.

(** ** examples/news-vendor/news-vendor-sampling.py: [build_model] *)

Module NewsVendorSamplingModel.

(** A demand used as the index of a variable or a row: the number, written
    as its decimal numeral. *)
Definition demand_index (d : Z) : list string := [pretty d].

(** [self.p[demand]]. *)
Definition table_get (p : gmap Z Q) (d : Z) : result Q :=
  match p !! d with
  | Some v => Ok v
  | None => Raise "KeyError"
  end.

(** What the method attaches as [self.model].  [model.x] is a scalar
    variable; [model.y] and [model.w] are indexed by [self.demand], and all
    three are declared [within=pyo.NonNegativeIntegers].  The index set is
    kept as the list the code passes; what Pyomo does with a demand drawn
    more than once is not part of this source. *)
Record VendorModel : Type := {
  model_demand : list (list string);
  model_obj : expr;
  model_constraints : list Constraint
}.

Definition build_model (self : NewsVendorSampling.Vendor) : result VendorModel :=
  let x := Var (V "x" []) in
  let idx := map demand_index (NewsVendorSampling.demand self) in
  sold ← mapM (λ demand,
      pd ← table_get (NewsVendorSampling.p self) demand;
      y ← getvar "y" idx (demand_index demand);
      Ok (Mul (Mul (Num (- pd)) y) (Num (NewsVendorSampling.q self))))
    (NewsVendorSampling.demand self);
  unsold ← mapM (λ demand,
      pd ← table_get (NewsVendorSampling.p self) demand;
      w ← getvar "w" idx (demand_index demand);
      Ok (Mul (Mul (Num (- pd)) w) (Num (NewsVendorSampling.r self))))
    (NewsVendorSampling.demand self);
  let obj :=
    Add (Add (Mul x (Num (NewsVendorSampling.c self))) (py_sum sold))
        (py_sum unsold) in
  balance_sold_papers_rule ← mapM (λ demand,
      y ← getvar "y" idx (demand_index demand);
      Ok (demand_index demand, Row y Le (Num (inject_Z demand))))
    (NewsVendorSampling.demand self);
  overall_newspaper_balance_rule ← mapM (λ demand,
      y ← getvar "y" idx (demand_index demand);
      w ← getvar "w" idx (demand_index demand);
      Ok (demand_index demand, Row (Add y w) Le x))
    (NewsVendorSampling.demand self);
  Ok {| model_demand := idx;
        model_obj := obj;
        model_constraints :=
          [ Con "balance_sold_papers_rule" balance_sold_papers_rule;
            Con "overall_newspaper_balance_rule" overall_newspaper_balance_rule ] |}.

End NewsVendorSamplingModel.

(** The weight the objective puts on the second-stage terms of demand [d]
    when [d] was drawn [k] times out of [n]: each of the [k] draws adds a
    term weighted by the table entry [k/n]. *)
Definition sampled_weight (demand : list Z) (n : nat) (d : Z) : Q :=
  inject_Z (Z.of_nat (count_occ Z.eq_dec demand d))
  * (inject_Z (Z.of_nat (count_occ Z.eq_dec demand d)) / inject_Z (Z.of_nat n)).

(** The attributes of a scenario fit together: every crop of a list has
    its coefficient, every required crop is plantable, sellable and
    purchasable and has a yield and a minimum requirement, and the beet
    entries the builder names exist. *)
Definition consistent_template (s : Farmer3Scenarios.Farmer) : Prop :=
  (∀ c, c ∈ Farmer3Scenarios.planting_crops s →
        is_Some (Farmer3Scenarios.planting_cost s !! c)) ∧
  (∀ c, c ∈ Farmer3Scenarios.selling_crops s →
        is_Some (Farmer3Scenarios.selling_price s !! c)) ∧
  (∀ c, c ∈ Farmer3Scenarios.purchasing_crops s →
        is_Some (Farmer3Scenarios.purchase_price s !! c)) ∧
  (∀ c, c ∈ Farmer3Scenarios.required_crops s →
        c ∈ Farmer3Scenarios.planting_crops s ∧
        is_Some (Farmer3Scenarios.crop_yield s !! c) ∧
        c ∈ Farmer3Scenarios.purchasing_crops s ∧
        c ∈ Farmer3Scenarios.selling_crops s ∧
        is_Some (Farmer3Scenarios.min_requirement s !! c)) ∧
  "beets_favorable" ∈ Farmer3Scenarios.selling_crops s ∧
  "beets_unfavorable" ∈ Farmer3Scenarios.selling_crops s ∧
  is_Some (Farmer3Scenarios.crop_yield s !! "beets") ∧
  "beets" ∈ Farmer3Scenarios.planting_crops s.

(** A scenario that has lost its table of yields. *)
Definition without_yields (s : Farmer3Scenarios.Farmer)
    : Farmer3Scenarios.Farmer :=
  {| Farmer3Scenarios.crop_yield := ∅;
     Farmer3Scenarios.total_acres := Farmer3Scenarios.total_acres s;
     Farmer3Scenarios.planting_cost := Farmer3Scenarios.planting_cost s;
     Farmer3Scenarios.planting_crops := Farmer3Scenarios.planting_crops s;
     Farmer3Scenarios.selling_price := Farmer3Scenarios.selling_price s;
     Farmer3Scenarios.selling_crops := Farmer3Scenarios.selling_crops s;
     Farmer3Scenarios.min_requirement := Farmer3Scenarios.min_requirement s;
     Farmer3Scenarios.purchase_price := Farmer3Scenarios.purchase_price s;
     Farmer3Scenarios.purchasing_crops := Farmer3Scenarios.purchasing_crops s;
     Farmer3Scenarios.required_crops := Farmer3Scenarios.required_crops s;
     Farmer3Scenarios.beets_quota := Farmer3Scenarios.beets_quota s |}.

(** ** examples/farmer-scenario-representation.py *)

Module FarmerScenarioRepresentation.

(** [Farmer.Farmer_attr]: [wheat] and [corn] are always set, [beets] only
    from a dict of three entries, the two beet prices only from a dict of
    four. *)
Record Farmer_attr : Type := {
  units : string;
  wheat : Q;
  corn : Q;
  beets : option Q;
  beets_favorable : option Q;
  beets_unfavorable : option Q
}.

Definition Farmer_attr__init__ (units : string) (values : gmap string Q)
    : result Farmer_attr :=
  wheat ← getitem values "wheat";
  corn ← getitem values "corn";
  if decide (size values = 3%nat) then
    beets ← getitem values "beets";
    Ok {| units := units; wheat := wheat; corn := corn; beets := Some beets;
          beets_favorable := None; beets_unfavorable := None |}
  else if decide (size values = 4%nat) then
    beets_favorable ← getitem values "beets_favorable";
    beets_unfavorable ← getitem values "beets_unfavorable";
    Ok {| units := units; wheat := wheat; corn := corn; beets := None;
          beets_favorable := Some beets_favorable;
          beets_unfavorable := Some beets_unfavorable |}
  else
    Ok {| units := units; wheat := wheat; corn := corn; beets := None;
          beets_favorable := None; beets_unfavorable := None |}.

(** Reading an attribute that may never have been set. *)
Definition getattr (a : option Q) : result Q :=
  match a with
  | Some v => Ok v
  | None => Raise "AttributeError"
  end.

Record Farmer : Type := {
  total_acres : Q;
  crop_yield : Farmer_attr;
  planting_cost : Farmer_attr;
  selling_price : Farmer_attr;
  min_requirement : Farmer_attr;
  purchase_price : Farmer_attr;
  beets_quota : Q;
  deterministic_model : option Model
}.

Definition __init__ : result Farmer :=
  crop_yield ← Farmer_attr__init__ "T/acre"
    (<["wheat" := 2.5]> (<["corn" := 3]> (<["beets" := 20]> ∅)));
  planting_cost ← Farmer_attr__init__ "$/acre"
    (<["wheat" := 150]> (<["corn" := 230]> (<["beets" := 260]> ∅)));
  selling_price ← Farmer_attr__init__ "$/T"
    (<["wheat" := 170]> (<["corn" := 150]>
       (<["beets_favorable" := 36]> (<["beets_unfavorable" := 10]> ∅))));
  min_requirement ← Farmer_attr__init__ "T"
    (<["wheat" := 200]> (<["corn" := 240]> ∅));
  purchase_price ← Farmer_attr__init__ "$/T"
    (<["wheat" := 238]> (<["corn" := 210]> ∅));
  Ok {| total_acres := 500;
        crop_yield := crop_yield;
        planting_cost := planting_cost;
        selling_price := selling_price;
        min_requirement := min_requirement;
        purchase_price := purchase_price;
        beets_quota := 6000;
        deterministic_model := None |}.

Definition build_deterministic_model (self : Farmer) : result Farmer :=
  let x := singletons ["wheat"; "corn"; "beets"] in
  let w := singletons ["wheat"; "corn"; "beets_favorable"; "beets_unfavorable"] in
  let y := singletons ["wheat"; "corn"] in
  xw ← getvar "x" x ["wheat"];
  xc ← getvar "x" x ["corn"];
  xb ← getvar "x" x ["beets"];
  pb ← getattr (beets (planting_cost self));
  yw ← getvar "y" y ["wheat"];
  ww ← getvar "w" w ["wheat"];
  yc ← getvar "y" y ["corn"];
  wc ← getvar "w" w ["corn"];
  wf ← getvar "w" w ["beets_favorable"];
  sf ← getattr (beets_favorable (selling_price self));
  wu ← getvar "w" w ["beets_unfavorable"];
  su ← getattr (beets_unfavorable (selling_price self));
  let obj :=
    Sub (Add (Sub (Add (Sub (Add (Add (Add
      (Mul xw (Num (wheat (planting_cost self))))
      (Mul xc (Num (corn (planting_cost self)))))
      (Mul xb (Num pb)))
      (Mul yw (Num (wheat (purchase_price self)))))
      (Mul ww (Num (wheat (selling_price self)))))
      (Mul yc (Num (corn (purchase_price self)))))
      (Mul wc (Num (corn (selling_price self)))))
      (Mul (Mul (Num (-1)) wf) (Num sf)))
      (Mul wu (Num su)) in
  let total_acreage_allowed :=
    scalar "total_acreage_allowed"
           (Row (Add (Add xw xc) xb) Le (Num (total_acres self))) in
  let minimum_wheat_requirement :=
    scalar "minimum_wheat_requirement"
           (Row (Sub (Add (Mul xw (Num (wheat (crop_yield self)))) yw) ww) Ge
                (Num (wheat (min_requirement self)))) in
  let minimum_corn_requirement :=
    scalar "minimum_corn_requirement"
           (Row (Sub (Add (Mul xc (Num (corn (crop_yield self)))) yc) wc) Ge
                (Num (corn (min_requirement self)))) in
  yb ← getattr (beets (crop_yield self));
  let sugar_beet_mass_balance :=
    scalar "sugar_beet_mass_balance" (Row (Add wf wu) Le (Mul (Num yb) xb)) in
  let sugar_beet_quota :=
    scalar "sugar_beet_quota" (Row wf Le (Num (beets_quota self))) in
  Ok {| total_acres := total_acres self;
        crop_yield := crop_yield self;
        planting_cost := planting_cost self;
        selling_price := selling_price self;
        min_requirement := min_requirement self;
        purchase_price := purchase_price self;
        beets_quota := beets_quota self;
        deterministic_model := Some
          {| model_x := x; model_w := w; model_y := y;
             model_exprs := [];
             model_obj := obj;
             model_constraints :=
               [ total_acreage_allowed; minimum_wheat_requirement;
                 minimum_corn_requirement; sugar_beet_mass_balance;
                 sugar_beet_quota ];
             _mpisppy_probability := None |} |}.

End FarmerScenarioRepresentation.

(** ** Rounded arithmetic *)

(** The numbers of the scripts are doubles.  [rounds u exact computed]
    is the standard model of one correctly rounded operation: the stored
    result differs from the exact one by a relative error of at most [u]
    (2^-53 for a double, away from overflow and underflow). *)
Definition rounds (u exact computed : Q) : Prop :=
  Qabs (computed - exact) <= u * Qabs exact.




(** ** The two normalizations in rounded arithmetic

    The same source lines as [FarmerNScenariosPH.bin_loop],
    [FarmerNScenariosPH.probabilities], [NewsVendorSampling.fill_p] and
    [NewsVendorSampling.__init__], with the rounding of every subtraction,
    addition and division of the normalization written out: [fl x] is
    what the machine stores for an operation whose exact result is [x].
    The bin edges and the values of the cdf are taken as they are; only
    their order enters the bounds. *)

Module FarmerNScenariosPHRounded.

Fixpoint bin_loop (fl : Q → Q) (norm_cdf : Q → Q) (bins : list Q)
    (range : list nat) (cdfs : list Q) (total : Q) : result (list Q * Q) :=
  match range with
  | [] => Ok (cdfs, total)
  | bin_num :: rest =>
      a ← list_index bins bin_num;
      let cdf_a := norm_cdf a in
      b ← list_index bins (bin_num + 1);
      let cdf_b := norm_cdf b in
      bin_loop fl norm_cdf bins rest (cdfs ++ [fl (cdf_b - cdf_a)])
               (fl (total + fl (cdf_b - cdf_a)))
  end.

Definition probabilities (fl : Q → Q) (norm_cdf : Q → Q)
    (num_scenarios : nat) : result (list Q) :=
  let bins := FarmerNScenariosPH.bins num_scenarios in
  '(cdfs, total) ← bin_loop fl norm_cdf bins (seq 0 (length bins - 1)) [] 0;
  mapM (λ bin_num, c ← range_dict_get cdfs bin_num; Ok (fl (c / total)))
       (seq 0 (length bins - 1)).

End FarmerNScenariosPHRounded.

Module NewsVendorSamplingRounded.

Fixpoint fill_p (fl : Q → Q) (keys : list Z) (demand : list Z)
    (num_scenarios : nat) (p : gmap Z Q) : result (gmap Z Q) :=
  match keys with
  | [] => Ok p
  | d :: rest =>
      if decide (num_scenarios = 0%nat) then Raise "ZeroDivisionError"
      else
        let count := count_occ Z.eq_dec demand d in
        fill_p fl rest demand num_scenarios
          (<[d := fl (inject_Z (Z.of_nat count)
                      / inject_Z (Z.of_nat num_scenarios))]> p)
  end.

Definition __init__ (fl : Q → Q) (num_scenarios : nat) (uniform : list Q)
    : result NewsVendorSampling.Vendor :=
  let demand := map around uniform in
  p ← fill_p fl (NewsVendorSampling.distinct_sorted demand) demand
         num_scenarios ∅;
  Ok {| NewsVendorSampling.c := 10; NewsVendorSampling.q := 25;
        NewsVendorSampling.r := 5;
        NewsVendorSampling.num_scenarios := num_scenarios;
        NewsVendorSampling.demand := demand;
        NewsVendorSampling.p := p |}.

End NewsVendorSamplingRounded.

(** * Properties *)

(** ** The result monad *)

Lemma bind_Ok {A B : Type} (m : result A) (f : A → result B) (b : B) :
  m ≫= f = Ok b → ∃ a, m = Ok a ∧ f a = Ok b.
Proof. destruct m as [a | e]; simpl; [eauto | discriminate]. Qed.

Lemma bind_Raise {A B : Type} (m : result A) (f : A → result B) (exn : string) :
  m ≫= f = Raise exn → m = Raise exn ∨ ∃ a, m = Ok a ∧ f a = Raise exn.
Proof. destruct m as [a | e]; simpl; [eauto | intros [= ->]; auto]. Qed.

(** Splits a hypothesis [m ≫= f = Ok b] into its two steps, repeatedly. *)
Ltac bind_inv H :=
  let a := fresh "a" in
  let Ha := fresh "H" a in
  apply bind_Ok in H as (a & Ha & H); simpl in H.

Lemma mapM_Ok {A B : Type} (f : A → result B) (l : list A) (k : list B) :
  mapM f l = Ok k → Forall2 (λ a b, f a = Ok b) l k.
Proof.
  revert k. induction l as [| a l IH]; intros k H; simpl in H.
  - injection H as <-. constructor.
  - apply bind_Ok in H as (b & Hb & H).
    apply bind_Ok in H as (k' & Hk' & H).
    injection H as <-. constructor; auto.
Qed.

Lemma mapM_total {A B : Type} (f : A → result B) (g : A → B) (l : list A) :
  (∀ a, a ∈ l → f a = Ok (g a)) → mapM f l = Ok (map g l).
Proof.
  induction l as [| a l IH]; intros H; simpl; [reflexivity |].
  rewrite (H a) by constructor. simpl.
  rewrite IH; [reflexivity |]. intros b Hb. apply H. by constructor.
Qed.

(** ** The label table (C9, C5) *)

Lemma recognized_cases (w : string) :
  recognized w = true → w = "good" ∨ w = "fair" ∨ w = "bad".
Proof.
  unfold recognized. rewrite !orb_true_iff, !bool_decide_eq_true. tauto.
Qed.

Lemma predict_recognized (w : string) (old : option Q) :
  recognized w = true → predict w old = Some (label_multiplier w).
Proof.
  intros H. destruct (recognized_cases w H) as [-> | [-> | ->]]; reflexivity.
Qed.

Lemma predict_unrecognized (w : string) (old : option Q) :
  recognized w = false → predict w old = old.
Proof.
  unfold recognized, predict.
  rewrite !orb_false_iff, !bool_decide_eq_false. intros [[H1 H2] H3].
  rewrite !decide_False by assumption. reflexivity.
Qed.

Lemma crop_yield_scenarios_recognized (ws : list string) :
  Forall (λ w, recognized w = true) ws →
  ∀ old acc, ∃ d,
    FarmerExtensiveForm.crop_yield_scenarios ws old acc = Ok d ∧
    ∀ w, (w ∈ ws → d !! w = Some (yield_dict (label_multiplier w))) ∧
         (w ∉ ws → d !! w = acc !! w).
Proof.
  induction 1 as [| w ws Hw _ IH]; intros old acc; simpl.
  - exists acc. split; [reflexivity |]. intros w. split; [| reflexivity].
    intros Hin. inversion Hin.
  - rewrite (predict_recognized w old Hw). simpl.
    destruct (IH (Some (label_multiplier w))
                 (<[w := yield_dict (label_multiplier w)]> acc))
      as (d & Hd & Hlook).
    exists d. split; [exact Hd |]. intros w'. split.
    + intros Hin. destruct (decide (w' ∈ ws)) as [Hin' | Hnin].
      * apply Hlook, Hin'.
      * apply elem_of_cons in Hin as [-> | Hin]; [| contradiction].
        rewrite (proj2 (Hlook w) Hnin). apply lookup_insert_eq.
    + intros Hnin. apply not_elem_of_cons in Hnin as [Hne Hnin].
      rewrite (proj2 (Hlook w') Hnin). apply lookup_insert_ne. congruence.
Qed.

(** C9.  The constructor maps the labels good, fair and bad to the
    multipliers 1.2, 1.0 and 0.8 and applies them to the base yields
    2.5 (wheat), 3 (corn) and 20 (beets): for a single label the yield
    dict is [{wheat: 2.5*m, corn: 3*m, beets: 20*m}], for a list of
    recognized labels every label of the list gets that dict, and the
    good-weather wheat yield is 2.5 * 1.2 = 3.0. *)
Theorem yields_scale_base_by_label_multiplier :
  label_multiplier "good" == 1.2 ∧ label_multiplier "fair" == 1.0 ∧
  label_multiplier "bad" == 0.8 ∧
  (∀ m : Q, yield_dict m !! "wheat" = Some (2.5 * m) ∧
            yield_dict m !! "corn" = Some (3 * m) ∧
            yield_dict m !! "beets" = Some (20 * m)) ∧
  (∀ w, recognized w = true →
        ∃ f, FarmerExtensiveForm.__init__ (FarmerExtensiveForm.WStr w) = Ok f ∧
             FarmerExtensiveForm.crop_yield f
             = FarmerExtensiveForm.YFlat (yield_dict (label_multiplier w))) ∧
  (∀ ws, Forall (λ w, recognized w = true) ws →
        ∃ f d, FarmerExtensiveForm.__init__ (FarmerExtensiveForm.WList ws) = Ok f ∧
               FarmerExtensiveForm.crop_yield f = FarmerExtensiveForm.YNested d ∧
               ∀ w, w ∈ ws → d !! w = Some (yield_dict (label_multiplier w))) ∧
  (∃ f d y, FarmerExtensiveForm.__init__ (FarmerExtensiveForm.WStr "good") = Ok f ∧
            FarmerExtensiveForm.crop_yield f = FarmerExtensiveForm.YFlat d ∧
            d !! "wheat" = Some y ∧ y == 3.0).
Proof.
  split; [reflexivity |]. split; [reflexivity |]. split; [reflexivity |].
  split; [intros m; repeat split; reflexivity |].
  split; [| split].
  - intros w Hw. unfold FarmerExtensiveForm.__init__.
    rewrite (predict_recognized w None Hw). simpl. eexists. split; reflexivity.
  - intros ws Hws. unfold FarmerExtensiveForm.__init__.
    destruct (crop_yield_scenarios_recognized ws Hws None ∅) as (d & -> & Hd).
    simpl. eexists; exists d. split; [reflexivity |]. split; [reflexivity |].
    intros w Hin. by apply Hd.
  - eexists; eexists; eexists. split; [reflexivity |]. split; [reflexivity |].
    split; [reflexivity |]. reflexivity.
Qed.

Lemma yields_scale_base_by_label_multiplier_witness :
  ∃ f d, FarmerExtensiveForm.__init__
           (FarmerExtensiveForm.WList ["good"; "fair"; "bad"]) = Ok f ∧
         FarmerExtensiveForm.crop_yield f = FarmerExtensiveForm.YNested d ∧
         ∀ w, w ∈ ["good"; "fair"; "bad"] →
              d !! w = Some (yield_dict (label_multiplier w)).
Proof.
  apply (proj1 (proj2 (proj2 (proj2 (proj2 (proj2
           yields_scale_base_by_label_multiplier)))))).
  repeat constructor.
Defined.

Lemma crop_yield_scenarios_raises (ws : list string) :
  ∀ old acc exn,
    FarmerExtensiveForm.crop_yield_scenarios ws old acc = Raise exn →
    exn = "UnboundLocalError".
Proof.
  induction ws as [| w ws IH]; intros old acc exn H; simpl in H.
  - discriminate H.
  - destruct (predict w old) as [p |]; simpl in H.
    + eapply IH, H.
    + by injection H as <-.
Qed.

(** The claim as the specification words it fails: an unrecognized label
    stops the constructor with Python's unbound-name error, not with
    [InvalidScenarioError], and a probability of 0 is accepted as given. *)
Lemma unrecognized_label_is_not_InvalidScenarioError :
  recognized "rainy" = false ∧
  FarmerExtensiveForm.__init__ (FarmerExtensiveForm.WStr "rainy")
    = Raise "UnboundLocalError" ∧
  FarmerExtensiveForm.__init__ (FarmerExtensiveForm.WStr "rainy")
    ≠ Raise "InvalidScenarioError" ∧
  Farmer3Scenarios.__init__ "rainy" None ≠ Raise "InvalidScenarioError" ∧
  0 <= 0 ∧
  FarmerNScenariosPH.probability (FarmerNScenariosPH.__init__ 1 0) = 0.
Proof.
  split; [reflexivity |]. split; [reflexivity |].
  split; [discriminate |]. split; [discriminate |].
  split; [apply Qle_refl | reflexivity].
Qed.

(** C5, as the code has it.  No constructor validates its arguments and
    none raises [InvalidScenarioError]; a probability is stored as given,
    whatever its sign.  For every recognized label construction succeeds
    and yields the base yields scaled by that label's multiplier.  A
    single unrecognized label (as the string argument, as the first label
    of a list, or with the global still unbound) stops construction with
    Python's error for an unbound name. *)
Theorem constructors_do_not_validate :
  (∀ w, recognized w = true →
     (∃ f, FarmerExtensiveForm.__init__ (FarmerExtensiveForm.WStr w) = Ok f ∧
           FarmerExtensiveForm.crop_yield f
           = FarmerExtensiveForm.YFlat (yield_dict (label_multiplier w))) ∧
     (∀ g, ∃ f, Farmer3Scenarios.__init__ w g
                = Ok (f, Some (label_multiplier w)) ∧
                Farmer3Scenarios.crop_yield f
                = yield_dict (label_multiplier w))) ∧
  (∀ w, recognized w = false →
     FarmerExtensiveForm.__init__ (FarmerExtensiveForm.WStr w)
       = Raise "UnboundLocalError" ∧
     (∀ rest, FarmerExtensiveForm.__init__ (FarmerExtensiveForm.WList (w :: rest))
       = Raise "UnboundLocalError") ∧
     Farmer3Scenarios.__init__ w None = Raise "NameError") ∧
  (∀ y p, FarmerNScenariosPH.probability (FarmerNScenariosPH.__init__ y p) = p ∧
          FarmerNScenariosPH.crop_yield (FarmerNScenariosPH.__init__ y p)
          = yield_dict y) ∧
  (∀ wt, FarmerExtensiveForm.__init__ wt ≠ Raise "InvalidScenarioError") ∧
  (∀ w g, Farmer3Scenarios.__init__ w g ≠ Raise "InvalidScenarioError").
Proof.
  split; [| split; [| split; [| split]]].
  - intros w Hw. split.
    + unfold FarmerExtensiveForm.__init__.
      rewrite (predict_recognized w None Hw). simpl.
      eexists. split; reflexivity.
    + intros g. unfold Farmer3Scenarios.__init__.
      rewrite (predict_recognized w g Hw). simpl.
      eexists. split; reflexivity.
  - intros w Hw. split; [| split].
    + unfold FarmerExtensiveForm.__init__.
      rewrite (predict_unrecognized w None Hw). reflexivity.
    + intros rest. unfold FarmerExtensiveForm.__init__. simpl.
      rewrite (predict_unrecognized w None Hw). reflexivity.
    + unfold Farmer3Scenarios.__init__.
      rewrite (predict_unrecognized w None Hw). reflexivity.
  - intros y p. split; reflexivity.
  - intros [w | ws] H; unfold FarmerExtensiveForm.__init__ in H.
    + destruct (predict w None); simpl in H; discriminate H.
    + destruct (FarmerExtensiveForm.crop_yield_scenarios ws None ∅)
        as [d | e] eqn:E; simpl in H; [discriminate H |].
      injection H as ->.
      apply crop_yield_scenarios_raises in E. discriminate E.
  - intros w g H. unfold Farmer3Scenarios.__init__ in H.
    destruct (predict w g); simpl in H; discriminate H.
Qed.

Lemma constructors_do_not_validate_witness :
  (∃ f, FarmerExtensiveForm.__init__ (FarmerExtensiveForm.WStr "bad") = Ok f ∧
        FarmerExtensiveForm.crop_yield f
        = FarmerExtensiveForm.YFlat (yield_dict (label_multiplier "bad"))) ∧
  Farmer3Scenarios.__init__ "rainy" None = Raise "NameError".
Proof.
  split.
  - apply (proj1 constructors_do_not_validate "bad"). reflexivity.
  - apply (proj1 (proj2 constructors_do_not_validate) "rainy"). reflexivity.
Defined.

(** What the amended C5 leaves open: once a recognized label has bound
    [predicted_yield], a later unrecognized label silently reuses it. *)
Lemma unrecognized_label_reuses_bound_multiplier (w : string) (old : Q) :
  recognized w = false →
  (∃ f, Farmer3Scenarios.__init__ w (Some old) = Ok (f, Some old) ∧
        Farmer3Scenarios.crop_yield f = yield_dict old) ∧
  (∃ f d, FarmerExtensiveForm.__init__ (FarmerExtensiveForm.WList ["good"; w])
          = Ok f ∧
          FarmerExtensiveForm.crop_yield f = FarmerExtensiveForm.YNested d ∧
          d !! w = Some (yield_dict 1.2)).
Proof.
  intros Hw. split.
  - unfold Farmer3Scenarios.__init__.
    rewrite (predict_unrecognized w (Some old) Hw). simpl.
    eexists. split; reflexivity.
  - unfold FarmerExtensiveForm.__init__.
    cbn [FarmerExtensiveForm.crop_yield_scenarios].
    change (predict "good" None) with (Some 1.2).
    cbn [read_name mbind result_bind].
    rewrite (predict_unrecognized w (Some 1.2) Hw). simpl.
    eexists; eexists. split; [reflexivity |]. split; [reflexivity |].
    apply lookup_insert_eq.
Qed.

(** ** Exceptions of the builders (C6) *)

Lemma raises_only_Ok {A : Type} (P : string → Prop) (a : A) :
  raises_only P (Ok a).
Proof. intros exn H. discriminate H. Qed.

Lemma raises_only_bind {A B : Type} (P : string → Prop) (m : result A)
    (f : A → result B) :
  raises_only P m → (∀ a, raises_only P (f a)) → raises_only P (m ≫= f).
Proof.
  intros Hm Hf exn H. apply bind_Raise in H as [H | (a & _ & H)].
  - by apply Hm.
  - by apply (Hf a).
Qed.

Lemma raises_only_mapM {A B : Type} (P : string → Prop) (f : A → result B)
    (l : list A) :
  (∀ a, raises_only P (f a)) → raises_only P (mapM f l).
Proof.
  intros Hf. induction l as [| a l IH]; simpl.
  - apply raises_only_Ok.
  - apply raises_only_bind; [apply Hf |]. intros b.
    apply raises_only_bind; [apply IH |]. intros k. apply raises_only_Ok.
Qed.

Lemma raises_only_getitem {A : Type} (d : gmap string A) (k : string) :
  raises_only lookup_error (getitem d k).
Proof.
  intros exn. unfold getitem. destruct (d !! k); [discriminate |].
  intros [= <-]. by left.
Qed.

Lemma raises_only_getvar (name : string) (idx : list (list string))
    (key : list string) :
  raises_only lookup_error (getvar name idx key).
Proof.
  intros exn. unfold getvar. destruct (decide (key ∈ idx)); [discriminate |].
  intros [= <-]. by left.
Qed.

Lemma raises_only_yield_in (cy : FarmerExtensiveForm.yields) (w c : string) :
  raises_only lookup_error (FarmerExtensiveForm.yield_in cy w c).
Proof.
  destruct cy as [d | d]; simpl.
  - apply raises_only_bind; [apply raises_only_getitem |].
    intros _ exn [= <-]. by right.
  - apply raises_only_bind; [apply raises_only_getitem |].
    intros s. apply raises_only_getitem.
Qed.

Lemma raises_only_yield_of (cy : FarmerExtensiveForm.yields) (c : string) :
  raises_only lookup_error (FarmerExtensiveForm.yield_of cy c).
Proof.
  destruct cy as [d | d]; simpl.
  - apply raises_only_getitem.
  - apply raises_only_bind; [apply raises_only_getitem |].
    intros _ exn [= <-]. by right.
Qed.

(** Evaluates the dict lookups of a goal on concrete dicts. *)
Ltac eval_lookups :=
  repeat match goal with
    | |- context [default 0 ?l] =>
        let v := eval vm_compute in (default 0 l) in
        change (default 0 l) with v
    end.

(** One step of the analysis of a builder: a lookup, a loop, or a bind. *)
Ltac raises_step :=
  first
    [ apply raises_only_Ok
    | apply raises_only_getitem
    | apply raises_only_getvar
    | apply raises_only_yield_in
    | apply raises_only_yield_of
    | apply raises_only_mapM; intros; try case_match
    | apply raises_only_bind; [| intros ] ].

Lemma build_extensive_form_model_raises (self : FarmerExtensiveForm.Farmer) :
  raises_only lookup_error (FarmerExtensiveForm.build_extensive_form_model self).
Proof.
  unfold FarmerExtensiveForm.build_extensive_form_model.
  apply raises_only_bind.
  - destruct (FarmerExtensiveForm.weathers self); simpl.
    + intros exn [= <-]. by right.
    + apply raises_only_Ok.
  - intros ws. repeat raises_step.
Qed.

Lemma build_deterministic_model_raises (self : FarmerExtensiveForm.Farmer) :
  raises_only lookup_error (FarmerExtensiveForm.build_deterministic_model self).
Proof.
  unfold FarmerExtensiveForm.build_deterministic_model. repeat raises_step.
Qed.

(** The claim as the specification words it fails: on the empty scenario
    list the builder returns a model. *)
Lemma empty_scenario_list_builds_a_model :
  ∃ f f' m,
    FarmerExtensiveForm.__init__ (FarmerExtensiveForm.WList []) = Ok f ∧
    FarmerExtensiveForm.build_extensive_form_model f = Ok f' ∧
    FarmerExtensiveForm.extensive_form_model f' = Some m ∧
    FarmerExtensiveForm.build_extensive_form_model f
      ≠ Raise "EmptyScenarioSetError".
Proof.
  eexists; eexists; eexists.
  split; [reflexivity |]. split; [reflexivity |]. split; [reflexivity |].
  discriminate.
Qed.

(** C6, as the code has it.  The builder of the extensive form never
    raises [EmptyScenarioSetError].  Applied to the empty scenario list it
    returns a model: the three shared land variables, no second-stage
    variable, the planting cost as objective, and the shared total-acreage
    constraint as the only row. *)
Theorem empty_scenario_list_yields_first_stage_model :
  (∀ self, FarmerExtensiveForm.build_extensive_form_model self
           ≠ Raise "EmptyScenarioSetError") ∧
  ∃ f f' m,
    FarmerExtensiveForm.__init__ (FarmerExtensiveForm.WList []) = Ok f ∧
    FarmerExtensiveForm.build_extensive_form_model f = Ok f' ∧
    FarmerExtensiveForm.extensive_form_model f' = Some m ∧
    model_x m = [["wheat"]; ["corn"]; ["beets"]] ∧
    model_w m = [] ∧ model_y m = [] ∧
    (∀ rho, eval rho (model_obj m)
            == planting_value (FarmerExtensiveForm.planting_cost f)
                 (FarmerExtensiveForm.planting_crops f) rho) ∧
    indexed_rows m = [] ∧
    map (λ c, (con_name c, length (con_rows c))) (model_constraints m)
    = [ ("total_acreage_allowed", 1%nat); ("minimum_requirement", 0%nat);
        ("sugar_beet_mass_balance", 0%nat); ("sugar_beet_quota", 0%nat) ].
Proof.
  split.
  - intros self H. apply build_extensive_form_model_raises in H.
    destruct H as [H | H]; discriminate H.
  - eexists; eexists; eexists.
    split; [reflexivity |]. split; [reflexivity |]. split; [reflexivity |].
    split; [reflexivity |]. split; [reflexivity |]. split; [reflexivity |].
    split; [| split; reflexivity].
    intros rho. unfold planting_value, coefficient. simpl.
    eval_lookups. field.
Qed.

(** ** The good/fair/bad instance (C3) *)

(** The claim as the specification words it fails: the model of the
    script has 12 scenario-indexed rows, not 15. *)
Lemma three_scenarios_have_twelve_indexed_rows :
  ∃ f m, FarmerExtensiveForm.main = Ok f ∧
         FarmerExtensiveForm.extensive_form_model f = Some m ∧
         length (indexed_rows m) = 12%nat ∧
         length (indexed_rows m) ≠ 15%nat.
Proof.
  eexists; eexists. split; [reflexivity |]. split; [reflexivity |].
  split; [reflexivity | discriminate].
Qed.

(** C3, as the code has it.  For the good/fair/bad instance (500 acres,
    planting costs 150/230/260, fair yields 2.5/3/20, minimum requirements
    200/240, purchase prices 238/210, selling prices 170/150/36/10, quota
    6000, weight 1/3) the builder produces one model with exactly 3 shared
    land variables, 12 selling variables (4 per scenario), 6 purchasing
    variables (2 per scenario), and 12 scenario-indexed rows (per scenario
    2 minimum-requirement, 1 mass-balance, 1 quota) plus the 1 shared
    total-acreage row; the total-acreage constraint is not repeated per
    scenario. *)
Theorem three_scenario_model_shape :
  ∃ f m d,
    FarmerExtensiveForm.main = Ok f ∧
    FarmerExtensiveForm.extensive_form_model f = Some m ∧
    (FarmerExtensiveForm.total_acres f = 500 ∧
     FarmerExtensiveForm.planting_cost f
     = <["wheat" := 150]> (<["corn" := 230]> (<["beets" := 260]> ∅)) ∧
     FarmerExtensiveForm.crop_yield f = FarmerExtensiveForm.YNested d ∧
     d !! "fair" = Some (<["wheat" := 2.5 * 1]> (<["corn" := 3 * 1]>
                           (<["beets" := 20 * 1]> ∅))) ∧
     FarmerExtensiveForm.min_requirement f
     = <["wheat" := 200]> (<["corn" := 240]> ∅) ∧
     FarmerExtensiveForm.purchase_price f
     = <["wheat" := 238]> (<["corn" := 210]> ∅) ∧
     FarmerExtensiveForm.selling_price f
     = <["wheat" := 170]> (<["corn" := 150]>
         (<["beets_favorable" := 36]> (<["beets_unfavorable" := 10]> ∅))) ∧
     FarmerExtensiveForm.beets_quota f = 6000) ∧
    length (model_x m) = 3%nat ∧
    length (model_w m) = 12%nat ∧
    length (model_y m) = 6%nat ∧
    NoDup (model_vars m) ∧
    length (indexed_rows m) = 12%nat ∧
    map fst (indexed_rows m)
    = [ ["good"; "wheat"]; ["good"; "corn"]; ["fair"; "wheat"];
        ["fair"; "corn"]; ["bad"; "wheat"]; ["bad"; "corn"];
        ["good"]; ["fair"]; ["bad"]; ["good"]; ["fair"]; ["bad"] ] ∧
    map (λ c, (con_name c, length (con_rows c))) (model_constraints m)
    = [ ("total_acreage_allowed", 1%nat); ("minimum_requirement", 6%nat);
        ("sugar_beet_mass_balance", 3%nat); ("sugar_beet_quota", 3%nat) ] ∧
    map fst (scalar_rows m) = [[]] ∧
    (∃ r, con_rows <$> head (model_constraints m) = Some [([], r)] ∧
          row_sense r = Le ∧ rhs r = Num 500 ∧
          ∀ rho, eval rho (lhs r)
                 == rho (V "x" ["wheat"]) + rho (V "x" ["corn"])
                    + rho (V "x" ["beets"])).
Proof.
  eexists; eexists; eexists. split; [reflexivity |]. split; [reflexivity |].
  split; [repeat split; reflexivity |].
  split; [reflexivity |]. split; [reflexivity |]. split; [reflexivity |].
  split; [refine (bool_decide_unpack _ _); vm_compute; exact I |].
  split; [reflexivity |]. split; [reflexivity |].
  split; [reflexivity |]. split; [reflexivity |].
  { eexists. split; [reflexivity |]. split; [reflexivity |].
    split; [reflexivity |]. intros rho. simpl. ring. }
Qed.

(** ** Frame of the builders (C10) *)

Lemma deterministic_builder_frame (self f' : FarmerExtensiveForm.Farmer) :
  FarmerExtensiveForm.build_deterministic_model self = Ok f' →
  same_template self f' ∧
  (∃ m, FarmerExtensiveForm.deterministic_model f' = Some m) ∧
  FarmerExtensiveForm.extensive_form_model f'
  = FarmerExtensiveForm.extensive_form_model self.
Proof.
  intros H. unfold FarmerExtensiveForm.build_deterministic_model in H.
  cbv zeta in H. repeat bind_inv H. injection H as <-.
  split; [by repeat split |]. split; [eexists |]; reflexivity.
Qed.

Lemma extensive_builder_frame (self f' : FarmerExtensiveForm.Farmer) :
  FarmerExtensiveForm.build_extensive_form_model self = Ok f' →
  same_template self f' ∧
  (∃ m, FarmerExtensiveForm.extensive_form_model f' = Some m) ∧
  FarmerExtensiveForm.deterministic_model f'
  = FarmerExtensiveForm.deterministic_model self.
Proof.
  intros H. unfold FarmerExtensiveForm.build_extensive_form_model in H.
  cbv zeta in H. repeat bind_inv H. injection H as <-.
  split; [by repeat split |]. split; [eexists |]; reflexivity.
Qed.

(** C10.  For every [Farmer] object, a builder that returns leaves every
    template attribute (crop_yield, total_acres, planting_cost,
    selling_price, min_requirement, purchase_price, beets_quota, and the
    crop lists and weathers as well) unchanged; it only attaches the new
    model, and leaves the model attached by the other builder alone. *)
Theorem builders_only_attach_the_model (self f' : FarmerExtensiveForm.Farmer) :
  (FarmerExtensiveForm.build_deterministic_model self = Ok f' →
   same_template self f' ∧
   (∃ m, FarmerExtensiveForm.deterministic_model f' = Some m) ∧
   FarmerExtensiveForm.extensive_form_model f'
   = FarmerExtensiveForm.extensive_form_model self) ∧
  (FarmerExtensiveForm.build_extensive_form_model self = Ok f' →
   same_template self f' ∧
   (∃ m, FarmerExtensiveForm.extensive_form_model f' = Some m) ∧
   FarmerExtensiveForm.deterministic_model f'
   = FarmerExtensiveForm.deterministic_model self).
Proof.
  split; [apply deterministic_builder_frame | apply extensive_builder_frame].
Qed.

Lemma builders_only_attach_the_model_witness :
  ∃ self f',
    FarmerExtensiveForm.__init__
      (FarmerExtensiveForm.WList ["good"; "fair"; "bad"]) = Ok self ∧
    FarmerExtensiveForm.build_extensive_form_model self = Ok f' ∧
    same_template self f' ∧
    FarmerExtensiveForm.deterministic_model f' = None.
Proof.
  eexists; eexists. split; [reflexivity |]. split; [reflexivity |].
  split.
  - refine (proj1 (proj2 (builders_only_attach_the_model _ _) _)).
    reflexivity.
  - reflexivity.
Defined.

(** ** Sums and linear terms *)

Lemma Qsum_app (l k : list Q) : Qsum (l ++ k) == Qsum l + Qsum k.
Proof.
  induction l as [| a l IH]; simpl.
  - ring.
  - change (foldr Qplus 0 (l ++ k)) with (Qsum (l ++ k)).
    change (foldr Qplus 0 l) with (Qsum l). rewrite IH. ring.
Qed.

Lemma Qsum_map_ext {A : Type} (f g : A → Q) (l : list A) :
  (∀ a, a ∈ l → f a == g a) → Qsum (map f l) == Qsum (map g l).
Proof.
  induction l as [| a l IH]; intros H; simpl; [reflexivity |].
  change (foldr Qplus 0 (map f l)) with (Qsum (map f l)).
  change (foldr Qplus 0 (map g l)) with (Qsum (map g l)).
  rewrite (H a) by constructor. rewrite IH; [reflexivity |].
  intros b Hb. apply H. by constructor.
Qed.

Lemma eval_foldl_Add (rho : var → Q) (ts : list expr) (acc : expr) :
  eval rho (foldl Add acc ts) == eval rho acc + Qsum (map (eval rho) ts).
Proof.
  revert acc. induction ts as [| t ts IH]; intros acc; simpl.
  - ring.
  - rewrite IH. simpl. ring.
Qed.

Lemma eval_py_sum (rho : var → Q) (ts : list expr) :
  eval rho (py_sum ts) == Qsum (map (eval rho) ts).
Proof. unfold py_sum. rewrite eval_foldl_Add. simpl. ring. Qed.

(** The value of a sum built by a generator over [l]. *)
Lemma eval_generated_sum {A : Type} (rho : var → Q) (f : A → result expr)
    (g : A → Q) (l : list A) (ts : list expr) :
  mapM f l = Ok ts →
  (∀ a t, a ∈ l → f a = Ok t → eval rho t == g a) →
  eval rho (py_sum ts) == Qsum (map g l).
Proof.
  intros H Hg. rewrite eval_py_sum. apply mapM_Ok in H.
  induction H as [| a t l ts Ha _ IH]; simpl; [reflexivity |].
  rewrite (Hg a t) by (constructor || assumption).
  change (foldr Qplus 0 (map (eval rho) ts)) with (Qsum (map (eval rho) ts)).
  rewrite IH; [reflexivity |]. intros b u Hb. apply Hg. by constructor.
Qed.

Lemma getitem_Ok (d : gmap string Q) (k : string) (v : Q) :
  getitem d k = Ok v → coefficient d k = v.
Proof.
  unfold getitem, coefficient. destruct (d !! k); [| discriminate].
  by intros [= ->].
Qed.

Lemma getvar_Ok (name : string) (idx : list (list string)) (key : list string)
    (e : expr) :
  getvar name idx key = Ok e → e = Var (V name key) ∧ key ∈ idx.
Proof.
  unfold getvar. destruct (decide (key ∈ idx)); [| discriminate].
  by intros [= <-].
Qed.

(** A term [model.g[key]*d[k]] of an objective. *)
Lemma eval_priced_term (rho : var → Q) (name : string)
    (idx : list (list string)) (key : list string) (d : gmap string Q)
    (k : string) (t : expr) :
  (v ← getvar name idx key; c ← getitem d k; Ok (Mul v (Num c))) = Ok t →
  eval rho t == rho (V name key) * coefficient d k.
Proof.
  intros H. apply bind_Ok in H as (v & Hv & H).
  apply bind_Ok in H as (c & Hc & H). injection H as <-.
  apply getvar_Ok in Hv as [-> _]. apply getitem_Ok in Hc as <-.
  reflexivity.
Qed.

(** Rows built by a generator: all hold iff the property they state
    holds at every index. *)
Lemma generated_rows_hold {A : Type} (rho : var → Q)
    (f : A → result (list string * row)) (P : A → Prop) (l : list A)
    (rows : list (list string * row)) :
  mapM f l = Ok rows →
  (∀ a ir, a ∈ l → f a = Ok ir → (row_holds rho ir.2 ↔ P a)) →
  (Forall (λ ir, row_holds rho ir.2) rows ↔ ∀ a, a ∈ l → P a).
Proof.
  intros H HP. apply mapM_Ok in H.
  induction H as [| a ir l rows Ha _ IH].
  - split; [intros _ a Ha; inversion Ha | constructor].
  - rewrite Forall_cons, (HP a ir) by (constructor || assumption).
    rewrite IH by (intros b jr Hb; apply HP; by constructor).
    split.
    + intros [Hp Hall] b Hb. apply elem_of_cons in Hb as [-> | Hb]; auto.
    + intros Hall. split; [apply Hall; constructor |].
      intros b Hb. apply Hall. by constructor.
Qed.

(** ** The deterministic model (C4) *)

Lemma build_deterministic_model_meaning (scenario : Farmer3Scenarios.Farmer)
    (m : Model) :
  Farmer3Scenarios.build_deterministic_model scenario = Ok m →
  deterministic_model_of scenario m.
Proof.
  intros H. unfold deterministic_model_of.
  unfold Farmer3Scenarios.build_deterministic_model in H.
  cbv zeta in H.
  apply bind_Ok in H as (planting & Hplanting & H).
  apply bind_Ok in H as (selling & Hselling & H).
  apply bind_Ok in H as (purchasing & Hpurchasing & H).
  apply bind_Ok in H as (acres & Hacres & H).
  apply bind_Ok in H as (minreq & Hminreq & H).
  apply bind_Ok in H as (wf & Hwf & H).
  apply bind_Ok in H as (wu & Hwu & H).
  apply bind_Ok in H as (yld & Hyld & H).
  apply bind_Ok in H as (xb & Hxb & H).
  apply bind_Ok in H as (wq & Hwq & H).
  injection H as <-. cbn [model_x model_w model_y model_obj model_constraints].
  split; [reflexivity |]. split; [reflexivity |]. split; [reflexivity |].
  split; [reflexivity |]. intros rho. split.
  - unfold deterministic_objective, planting_value, selling_value,
      purchasing_value. cbn [eval app].
    rewrite (eval_generated_sum rho _ _ _ _ Hplanting)
      by (intros a t _; apply eval_priced_term).
    rewrite (eval_generated_sum rho _ _ _ _ Hselling)
      by (intros a t _; apply eval_priced_term).
    rewrite (eval_generated_sum rho _ _ _ _ Hpurchasing)
      by (intros a t _; apply eval_priced_term).
    reflexivity.
  - apply getvar_Ok in Hwf as [-> _]. apply getvar_Ok in Hwu as [-> _].
    apply getvar_Ok in Hxb as [-> _]. apply getvar_Ok in Hwq as [-> _].
    apply getitem_Ok in Hyld as <-.
    unfold model_rows, deterministic_constraints.
    cbn [model_constraints mbind list_bind scalar con_rows app].
    rewrite Forall_cons, Forall_app, !Forall_cons, Forall_nil.
    unfold row_holds at 1 3 4. cbn [snd row_sense lhs rhs eval].
    rewrite (generated_rows_hold rho _
      (λ crop, rho (V "x" [crop])
               * coefficient (Farmer3Scenarios.crop_yield scenario) crop
               + rho (V "y" [crop]) - rho (V "w" [crop])
               >= coefficient (Farmer3Scenarios.min_requirement scenario) crop)
      _ _ Hminreq).
    + rewrite (eval_generated_sum rho _ (λ crop, rho (V "x" [crop])) _ _ Hacres).
      * tauto.
      * intros a t _ Ht. apply getvar_Ok in Ht as [-> _]. reflexivity.
    + intros crop ir _ Hir.
      apply bind_Ok in Hir as (xv & Hxv & Hir).
      apply bind_Ok in Hir as (y1 & Hy1 & Hir).
      apply bind_Ok in Hir as (yv & Hyv & Hir).
      apply bind_Ok in Hir as (wv & Hwv & Hir).
      apply bind_Ok in Hir as (req & Hreq & Hir).
      injection Hir as <-.
      apply getvar_Ok in Hxv as [-> _]. apply getvar_Ok in Hyv as [-> _].
      apply getvar_Ok in Hwv as [-> _].
      apply getitem_Ok in Hy1 as <-. apply getitem_Ok in Hreq as <-.
      reflexivity.
Qed.

(** The method of the extensive-form file builds the same variables,
    objective and rows as the function of the mpi-sppy file does from the
    attributes it reads. *)
Lemma method_builds_as_function (self f' : FarmerExtensiveForm.Farmer) :
  FarmerExtensiveForm.build_deterministic_model self = Ok f' →
  ∃ m m',
    FarmerExtensiveForm.deterministic_model f' = Some m ∧
    Farmer3Scenarios.build_deterministic_model (flat_attributes self) = Ok m' ∧
    model_x m = model_x m' ∧ model_w m = model_w m' ∧
    model_y m = model_y m' ∧ model_obj m = model_obj m' ∧
    model_constraints m = model_constraints m' ∧
    model_exprs m = [] ∧ _mpisppy_probability m = None.
Proof.
  intros H. unfold FarmerExtensiveForm.build_deterministic_model in H.
  cbv zeta in H.
  apply bind_Ok in H as (planting & Hplanting & H).
  apply bind_Ok in H as (selling & Hselling & H).
  apply bind_Ok in H as (purchasing & Hpurchasing & H).
  apply bind_Ok in H as (acres & Hacres & H).
  apply bind_Ok in H as (minreq & Hminreq & H).
  apply bind_Ok in H as (wf & Hwf & H).
  apply bind_Ok in H as (wu & Hwu & H).
  apply bind_Ok in H as (yld & Hyld & H).
  apply bind_Ok in H as (xb & Hxb & H).
  apply bind_Ok in H as (wq & Hwq & H).
  injection H as <-. rewrite Hwf in Hwq. injection Hwq as <-.
  unfold Farmer3Scenarios.build_deterministic_model, flat_attributes.
  cbn [Farmer3Scenarios.crop_yield Farmer3Scenarios.total_acres
       Farmer3Scenarios.planting_cost Farmer3Scenarios.planting_crops
       Farmer3Scenarios.selling_price Farmer3Scenarios.selling_crops
       Farmer3Scenarios.min_requirement Farmer3Scenarios.purchase_price
       Farmer3Scenarios.purchasing_crops Farmer3Scenarios.required_crops
       Farmer3Scenarios.beets_quota].
  destruct (FarmerExtensiveForm.crop_yield self) as [d | d].
  - cbn [FarmerExtensiveForm.yield_of] in Hminreq, Hyld.
    rewrite Hplanting, Hselling, Hpurchasing. cbn [mbind result_bind].
    rewrite Hacres. cbn [mbind result_bind].
    rewrite Hminreq. cbn [mbind result_bind].
    rewrite Hwf. cbn [mbind result_bind]. rewrite Hwu. cbn [mbind result_bind].
    rewrite Hyld. cbn [mbind result_bind]. rewrite Hxb. cbn [mbind result_bind].
    eexists; eexists. split; [reflexivity |]. split; [reflexivity |].
    repeat split; reflexivity.
  - cbn [FarmerExtensiveForm.yield_of] in Hyld.
    apply bind_Ok in Hyld as (? & _ & Hyld). discriminate Hyld.
Qed.

Lemma created_scenario_builds (w : string) (g g' : Farmer3Scenarios.globals)
    (scenario : Farmer3Scenarios.Farmer) :
  Farmer3Scenarios.__init__ w g = Ok (scenario, g') →
  ∃ m, Farmer3Scenarios.build_deterministic_model scenario = Ok m.
Proof.
  unfold Farmer3Scenarios.__init__.
  destruct (predict w g) as [p |]; simpl; [| discriminate].
  intros [= <- <-]. eexists. reflexivity.
Qed.

Lemma created_farmer_builds (w : string) (self : FarmerExtensiveForm.Farmer) :
  FarmerExtensiveForm.__init__ (FarmerExtensiveForm.WStr w) = Ok self →
  ∃ f', FarmerExtensiveForm.build_deterministic_model self = Ok f'.
Proof.
  unfold FarmerExtensiveForm.__init__.
  destruct (predict w None) as [p |]; simpl; [| discriminate].
  intros [= <-]. eexists. reflexivity.
Qed.

(** C4.  For every scenario the deterministic model minimizes
    plantingCost - sellingRevenue + purchasingCost, each term the sum of
    the group's variables times their unit coefficients, subject to
    exactly four constraint families: total land used <= total acres; for
    each required crop, land * yield + purchased - sold >= minimum
    requirement; favorable + unfavorable beet sales <= beet yield * beet
    land; favorable beet sales <= quota.  This holds for the function of
    the mpi-sppy file and for the method of the extensive-form file, and
    both return a model on every scenario their constructors create. *)
Theorem deterministic_model_is_the_scenario_program :
  (∀ scenario m,
     Farmer3Scenarios.build_deterministic_model scenario = Ok m →
     deterministic_model_of scenario m) ∧
  (∀ self f',
     FarmerExtensiveForm.build_deterministic_model self = Ok f' →
     ∃ m, FarmerExtensiveForm.deterministic_model f' = Some m ∧
          deterministic_model_of (flat_attributes self) m) ∧
  (∀ w g g' scenario,
     Farmer3Scenarios.__init__ w g = Ok (scenario, g') →
     ∃ m, Farmer3Scenarios.build_deterministic_model scenario = Ok m) ∧
  (∀ w self,
     FarmerExtensiveForm.__init__ (FarmerExtensiveForm.WStr w) = Ok self →
     ∃ f', FarmerExtensiveForm.build_deterministic_model self = Ok f').
Proof.
  split; [exact build_deterministic_model_meaning |].
  split; [| split; [exact created_scenario_builds | exact created_farmer_builds]].
  intros self f' H.
  apply method_builds_as_function in H
    as (m & m' & Hm & Hm' & Hx & Hw & Hy & Hobj & Hcons & _).
  exists m. split; [exact Hm |].
  apply build_deterministic_model_meaning in Hm'.
  unfold deterministic_model_of, model_rows in *.
  rewrite Hx, Hw, Hy, Hobj, Hcons. exact Hm'.
Qed.

Lemma deterministic_model_is_the_scenario_program_witness :
  ∃ scenario g m,
    Farmer3Scenarios.__init__ "good" None = Ok (scenario, g) ∧
    Farmer3Scenarios.build_deterministic_model scenario = Ok m ∧
    deterministic_model_of scenario m.
Proof.
  eexists; eexists; eexists. split; [reflexivity |]. split; [reflexivity |].
  refine (proj1 deterministic_model_is_the_scenario_program _ _ _).
  reflexivity.
Defined.

(** ** The objective of the extensive form (C1) *)

Lemma Qsum_scale {A : Type} (c : Q) (f : A → Q) (l : list A) :
  Qsum (map (λ a, c * f a) l) == c * Qsum (map f l).
Proof.
  induction l as [| a l IH]; simpl; [ring |].
  change (foldr Qplus 0 (map (λ a, c * f a) l)) with (Qsum (map (λ a, c * f a) l)).
  rewrite IH. unfold Qsum. ring.
Qed.

Lemma Qsum_plus {A : Type} (f g : A → Q) (l : list A) :
  Qsum (map (λ a, f a + g a) l) == Qsum (map f l) + Qsum (map g l).
Proof.
  induction l as [| a l IH]; simpl; [ring |].
  change (foldr Qplus 0 (map (λ a, f a + g a) l))
    with (Qsum (map (λ a, f a + g a) l)).
  rewrite IH. unfold Qsum. ring.
Qed.

Lemma Qsum_const {A : Type} (c : Q) (l : list A) :
  Qsum (map (λ _, c) l) == inject_Z (Z.of_nat (length l)) * c.
Proof.
  induction l as [| a l IH].
  - simpl. ring.
  - cbn [map length]. rewrite Nat2Z.inj_succ. unfold Z.succ.
    rewrite inject_Z_plus. simpl.
    change (foldr Qplus 0 (map (λ _, c) l)) with (Qsum (map (λ _ : A, c) l)).
    rewrite IH. ring.
Qed.

Lemma pairs_cons (a : string) (A B : list string) :
  FarmerExtensiveForm.pairs (a :: A) B
  = (map (λ b, (a, b)) B ++ FarmerExtensiveForm.pairs A B)%list.
Proof.
  unfold FarmerExtensiveForm.pairs. cbn [mbind list_bind].
  f_equal; try (induction B as [| b B IH]; [reflexivity |]; cbn; by rewrite IH).
Qed.

Lemma Qsum_pairs (f : string * string → Q) (A B : list string) :
  Qsum (map f (FarmerExtensiveForm.pairs A B))
  == Qsum (map (λ a, Qsum (map (λ b, f (a, b)) B)) A).
Proof.
  induction A as [| a A IH]; [reflexivity |].
  rewrite pairs_cons, map_app, Qsum_app, map_map, IH. reflexivity.
Qed.

Lemma Qsum_swap {A B : Type} (g : A → B → Q) (l : list A) (k : list B) :
  Qsum (map (λ a, Qsum (map (λ b, g a b) k)) l)
  == Qsum (map (λ b, Qsum (map (λ a, g a b) l)) k).
Proof.
  induction l as [| a l IH]; simpl.
  - induction k as [| b k IHk]; simpl; [reflexivity |].
    change (foldr Qplus 0 (map (λ _, 0) k)) with (Qsum (map (λ _ : B, 0) k)).
    rewrite <- IHk. ring.
  - change (foldr Qplus 0 ?l) with (Qsum l). rewrite IH.
    rewrite <- Qsum_plus. reflexivity.
Qed.

(** The objective as the code writes it: the planting cost once, then the
    selling revenue and the purchasing cost of all scenarios with the
    literal weights -1/3 and 1/3. *)
Lemma extensive_form_objective (self f' : FarmerExtensiveForm.Farmer) :
  FarmerExtensiveForm.build_extensive_form_model self = Ok f' →
  ∃ ws m,
    FarmerExtensiveForm.weathers self = FarmerExtensiveForm.WList ws ∧
    FarmerExtensiveForm.extensive_form_model f' = Some m ∧
    ∀ rho,
      eval rho (model_obj m)
      == planting_value (FarmerExtensiveForm.planting_cost self)
           (FarmerExtensiveForm.planting_crops self) rho
         + Qsum (map (λ s, (1/3) * recourse_value self rho s) ws).
Proof.
  intros H. unfold FarmerExtensiveForm.build_extensive_form_model in H.
  apply bind_Ok in H as (ws & Hws & H). cbv zeta in H.
  apply bind_Ok in H as (planting & Hplanting & H).
  apply bind_Ok in H as (selling & Hselling & H).
  apply bind_Ok in H as (purchasing & Hpurchasing & H).
  apply bind_Ok in H as (acres & _ & H).
  apply bind_Ok in H as (minreq & _ & H).
  apply bind_Ok in H as (balance & _ & H).
  apply bind_Ok in H as (quota & _ & H).
  injection H as <-.
  destruct (FarmerExtensiveForm.weathers self) as [w | ws'] eqn:Ew;
    [discriminate Hws | injection Hws as ->].
  exists ws. eexists. split; [reflexivity |]. split; [reflexivity |].
  intros rho. cbn [model_obj eval].
  rewrite (eval_generated_sum rho _ _ _ _ Hplanting)
    by (intros a t _; apply eval_priced_term).
  rewrite (eval_generated_sum rho _
             (λ cs, rho (V "w" [cs.2; cs.1])
                    * coefficient (FarmerExtensiveForm.selling_price self) cs.1)
             _ _ Hselling)
    by (intros [c s] t _; apply eval_priced_term).
  rewrite (eval_generated_sum rho _
             (λ cs, rho (V "y" [cs.2; cs.1])
                    * coefficient (FarmerExtensiveForm.purchase_price self) cs.1)
             _ _ Hpurchasing)
    by (intros [c s] t _; apply eval_priced_term).
  rewrite !Qsum_pairs. cbn [fst snd].
  rewrite (Qsum_swap (λ c s, rho (V "w" [s; c]) * _)).
  rewrite (Qsum_swap (λ c s, rho (V "y" [s; c]) * _)).
  unfold planting_value. rewrite Qsum_scale.
  unfold recourse_value, purchasing_value, selling_value. cbn [app].
  set (P := Qsum (map (λ s, Qsum (map (λ c, rho (V "y" [s; c]) * _) _)) ws)).
  set (S := Qsum (map (λ s, Qsum (map (λ c, rho (V "w" [s; c]) * _) _)) ws)).
  assert (Hsub : Qsum (map (λ s,
              Qsum (map (λ c, rho (V "y" [s; c])
                     * coefficient (FarmerExtensiveForm.purchase_price self) c)
                     (FarmerExtensiveForm.purchasing_crops self))
              - Qsum (map (λ c, rho (V "w" [s; c])
                     * coefficient (FarmerExtensiveForm.selling_price self) c)
                     (FarmerExtensiveForm.selling_crops self))) ws) == P - S).
  { unfold P, S. clear. induction ws as [| s ws IH]; simpl; [ring |].
    change (foldr Qplus 0 ?l) with (Qsum l). rewrite IH. ring. }
  rewrite Hsub. field.
Qed.

Lemma mapM_succeeds {A B : Type} (f : A → result B) (l : list A) :
  (∀ a, a ∈ l → ∃ b, f a = Ok b) → ∃ k, mapM f l = Ok k.
Proof.
  induction l as [| a l IH]; intros H; simpl; [by eexists |].
  destruct (H a) as [b ->]; [constructor |].
  destruct IH as [k ->]; [intros c Hc; apply H; by constructor |].
  by eexists.
Qed.

Lemma getvar_in (name : string) (idx : list (list string)) (key : list string) :
  key ∈ idx → getvar name idx key = Ok (Var (V name key)).
Proof. intros H. unfold getvar. by rewrite decide_True. Qed.

Lemma elem_of_product (s c : string) (ws cs : list string) :
  s ∈ ws → c ∈ cs → [s; c] ∈ product ws cs.
Proof.
  intros Hs Hc. unfold product. apply list_elem_of_bind. exists s.
  split; [| exact Hs]. apply list_elem_of_bind. exists c.
  split; [constructor | exact Hc].
Qed.

Lemma elem_of_pairs (a b : string) (A B : list string) :
  (a, b) ∈ FarmerExtensiveForm.pairs A B → a ∈ A ∧ b ∈ B.
Proof.
  unfold FarmerExtensiveForm.pairs. intros H.
  apply list_elem_of_bind in H as (a' & H & Ha).
  apply list_elem_of_bind in H as (b' & H & Hb).
  apply list_elem_of_singleton in H. by injection H as -> ->.
Qed.

Lemma returns_Ok {A : Type} (a : A) : returns (Ok a).
Proof. by exists a. Qed.

Lemma returns_bind {A B : Type} (m : result A) (f : A → result B) :
  returns m → (∀ a, returns (f a)) → returns (m ≫= f).
Proof. intros [a ->] Hf. apply Hf. Qed.

Lemma returns_mapM {A B : Type} (f : A → result B) (l : list A) :
  (∀ a, a ∈ l → returns (f a)) → returns (mapM f l).
Proof. apply mapM_succeeds. Qed.

Lemma returns_getvar (name : string) (idx : list (list string))
    (key : list string) :
  key ∈ idx → returns (getvar name idx key).
Proof. intros H. rewrite getvar_in by exact H. apply returns_Ok. Qed.

Lemma returns_getitem {A : Type} (d : gmap string A) (k : string) :
  is_Some (d !! k) → returns (getitem d k).
Proof. intros [v Hv]. unfold getitem. rewrite Hv. apply returns_Ok. Qed.

Lemma returns_yield_in (d : gmap string (gmap string Q)) (s c : string) (p : Q) :
  d !! s = Some (yield_dict p) → c ∈ ["wheat"; "corn"; "beets"] →
  returns (FarmerExtensiveForm.yield_in (FarmerExtensiveForm.YNested d) s c).
Proof.
  intros Hs Hc. unfold FarmerExtensiveForm.yield_in, getitem. rewrite Hs.
  cbn [mbind result_bind].
  repeat (apply elem_of_cons in Hc as [-> | Hc]); [apply returns_Ok .. |].
  inversion Hc.
Qed.

(** Membership in a concrete list, or in a product with one. *)
Ltac solve_in :=
  first [ assumption
        | apply elem_of_product; solve_in
        | cbn; repeat constructor ].

(** Case analysis on membership in a concrete list. *)
Ltac cases_in H :=
  repeat (apply elem_of_cons in H as [-> | H]); [.. | inversion H].

Ltac returns_step :=
  first
    [ apply returns_Ok
    | apply returns_getvar; solve_in
    | apply returns_getitem; by eexists
    | eapply returns_yield_in; [eassumption | solve_in]
    | apply returns_bind; [| intros ? ] ].

(** On every list of recognized labels the constructor and the builder of
    the extensive form both return. *)
Lemma extensive_form_builds (ws : list string) :
  Forall (λ w, recognized w = true) ws →
  ∃ f, FarmerExtensiveForm.__init__ (FarmerExtensiveForm.WList ws) = Ok f ∧
       returns (FarmerExtensiveForm.build_extensive_form_model f).
Proof.
  intros Hws. unfold FarmerExtensiveForm.__init__.
  destruct (crop_yield_scenarios_recognized ws Hws None ∅) as (d & -> & Hd).
  cbn [mbind result_bind]. eexists. split; [reflexivity |].
  unfold FarmerExtensiveForm.build_extensive_form_model.
  cbn [FarmerExtensiveForm.weathers FarmerExtensiveForm.scenario_set
       FarmerExtensiveForm.crop_yield FarmerExtensiveForm.total_acres
       FarmerExtensiveForm.planting_cost FarmerExtensiveForm.planting_crops
       FarmerExtensiveForm.selling_price FarmerExtensiveForm.selling_crops
       FarmerExtensiveForm.min_requirement FarmerExtensiveForm.purchase_price
       FarmerExtensiveForm.purchasing_crops FarmerExtensiveForm.required_crops
       FarmerExtensiveForm.beets_quota FarmerExtensiveForm.deterministic_model
       FarmerExtensiveForm.extensive_form_model mbind result_bind].
  cbv zeta.
  apply returns_bind; [| intros planting].
  { apply returns_mapM. intros c Hc. cases_in Hc; repeat returns_step. }
  apply returns_bind; [| intros selling].
  { apply returns_mapM. intros [c s] Hcs.
    apply elem_of_pairs in Hcs as [Hc Hs]. cases_in Hc; repeat returns_step. }
  apply returns_bind; [| intros purchasing].
  { apply returns_mapM. intros [c s] Hcs.
    apply elem_of_pairs in Hcs as [Hc Hs]. cases_in Hc; repeat returns_step. }
  apply returns_bind; [| intros acres].
  { apply returns_mapM. intros c Hc. cases_in Hc; repeat returns_step. }
  apply returns_bind; [| intros minreq].
  { apply returns_mapM. intros [s c] Hsc.
    apply elem_of_pairs in Hsc as [Hs Hc].
    pose proof (proj1 (Hd s) Hs) as Hlook.
    cases_in Hc; repeat returns_step. }
  apply returns_bind; [| intros balance].
  { apply returns_mapM. intros s Hs.
    pose proof (proj1 (Hd s) Hs) as Hlook. repeat returns_step. }
  apply returns_bind; [| intros quota].
  { apply returns_mapM. intros s Hs. repeat returns_step. }
  apply returns_Ok.
Qed.

(** The claim as the specification words it fails: with probabilities
    1/2, 1/4, 1/4 (which sum to 1) the objective of the model is not the
    probability-weighted sum of the scenario objectives; selling one ton
    of wheat in the good scenario counts -170/3 in the model and -85 in
    the weighted sum. *)
Lemma objective_ignores_probabilities :
  ∃ f m,
    FarmerExtensiveForm.main = Ok f ∧
    FarmerExtensiveForm.extensive_form_model f = Some m ∧
    Qsum (map uneven ["good"; "fair"; "bad"]) == 1 ∧
    ¬ (eval (only (V "w" ["good"; "wheat"]) 1) (model_obj m)
       == expected_objective f uneven ["good"; "fair"; "bad"]
            (only (V "w" ["good"; "wheat"]) 1)).
Proof.
  eexists; eexists. split; [reflexivity |]. split; [reflexivity |].
  split; [reflexivity |]. intros H. vm_compute in H. discriminate H.
Qed.

(** C1, as the code has it.  The objective of the extensive-form model is
    the planting cost over the shared land variables, counted once, plus
    the sum over the scenarios of 1/3 times (purchasing cost minus selling
    revenue of that scenario); the weight 1/3 is a literal of the code and
    no probability is an input.  For a scenario set of three scenarios
    with probability 1/3 each this is the probability-weighted sum of the
    scenario objectives.  The builder returns a model on every list of
    recognized labels. *)
Theorem objective_weights_recourse_by_one_third :
  (∀ self f',
     FarmerExtensiveForm.build_extensive_form_model self = Ok f' →
     ∃ ws m,
       FarmerExtensiveForm.weathers self = FarmerExtensiveForm.WList ws ∧
       FarmerExtensiveForm.extensive_form_model f' = Some m ∧
       ∀ rho,
         eval rho (model_obj m)
         == planting_value (FarmerExtensiveForm.planting_cost self)
              (FarmerExtensiveForm.planting_crops self) rho
            + Qsum (map (λ s, (1/3) * recourse_value self rho s) ws) ∧
         (length ws = 3%nat →
          eval rho (model_obj m)
          == expected_objective self (λ _, 1/3) ws rho)) ∧
  (∀ ws, Forall (λ w, recognized w = true) ws →
     ∃ f, FarmerExtensiveForm.__init__ (FarmerExtensiveForm.WList ws) = Ok f ∧
          returns (FarmerExtensiveForm.build_extensive_form_model f)).
Proof.
  split; [| exact extensive_form_builds].
  intros self f' H.
  destruct (extensive_form_objective self f' H) as (ws & m & Hws & Hm & Hobj).
  exists ws, m. split; [exact Hws |]. split; [exact Hm |].
  intros rho. split; [apply Hobj |].
  intros Hlen. rewrite Hobj. unfold expected_objective.
  assert (Hsplit : ∀ s, (1/3) * scenario_objective self rho s
            == (1/3) * planting_value (FarmerExtensiveForm.planting_cost self)
                         (FarmerExtensiveForm.planting_crops self) rho
               + (1/3) * recourse_value self rho s).
  { intros s. unfold scenario_objective, recourse_value. ring. }
  rewrite (Qsum_map_ext _ _ ws (λ s _, Hsplit s)).
  rewrite (Qsum_plus (λ _, (1/3) * planting_value _ _ rho)).
  rewrite Qsum_const, Hlen. simpl. field.
Qed.

Lemma objective_weights_recourse_by_one_third_witness :
  ∃ self f',
    FarmerExtensiveForm.__init__
      (FarmerExtensiveForm.WList ["good"; "fair"; "bad"]) = Ok self ∧
    FarmerExtensiveForm.build_extensive_form_model self = Ok f' ∧
    ∃ ws m,
      FarmerExtensiveForm.weathers self = FarmerExtensiveForm.WList ws ∧
      FarmerExtensiveForm.extensive_form_model f' = Some m ∧
      length ws = 3%nat ∧
      ∀ rho, eval rho (model_obj m)
             == expected_objective self (λ _, 1/3) ws rho.
Proof.
  eexists; eexists. split; [reflexivity |]. split; [reflexivity |].
  match goal with
  | |- ∃ ws m, FarmerExtensiveForm.weathers ?s = _ ∧
               FarmerExtensiveForm.extensive_form_model ?f = _ ∧ _ =>
      destruct (proj1 objective_weights_recourse_by_one_third s f eq_refl)
        as (ws & m & Hws & Hm & Hobj)
  end.
  exists ws, m. split; [exact Hws |]. split; [exact Hm |].
  injection Hws as <-. split; [reflexivity |].
  intros rho. apply Hobj. reflexivity.
Defined.

(** ** A single scenario (C2) *)

Lemma eval_rename (rho : var → Q) (f : var → var) (e : expr) :
  eval rho (rename f e) = eval (rho ∘ f) e.
Proof. induction e; simpl; congruence. Qed.

Lemma row_holds_rename (rho : var → Q) (f : var → var) (r : row) :
  row_holds rho (rename_row f r) ↔ row_holds (rho ∘ f) r.
Proof.
  unfold row_holds, rename_row. destruct r as [l [] r'];
    cbn [lhs rhs row_sense]; by rewrite !eval_rename.
Qed.

(** Two models, the variables and rows of the second being those of the
    first renamed, have the same feasible region up to the renaming. *)
Lemma feasible_rename (f : var → var) (md me : Model) :
  model_vars me = map f (model_vars md) →
  map snd (model_rows me) = map (rename_row f ∘ snd) (model_rows md) →
  ∀ rho, feasible me rho ↔ feasible md (rho ∘ f).
Proof.
  intros Hvars Hrows rho. unfold feasible.
  rewrite Hvars, Forall_map.
  rewrite <- (Forall_map snd (row_holds rho) (model_rows me)), Hrows.
  rewrite Forall_map.
  apply and_iff_compat_l, Forall_iff. intros [i r]. apply row_holds_rename.
Qed.

(** Evaluates [lift] on the concrete variables of a goal. *)
Ltac eval_lifts :=
  repeat match goal with
    | |- context [lift ?s ?v] =>
        let r := eval vm_compute in (lift s v) in
        change (lift s v) with r
    end.

(** The claim as the specification words it fails: for the single
    scenario fair, selling three tons of wheat changes the objective of
    the extensive form by -170 and that of the deterministic model by
    -510. *)
Lemma single_scenario_objective_differs :
  ∃ fd fd' md fe fe' me,
    FarmerExtensiveForm.__init__ (FarmerExtensiveForm.WStr "fair") = Ok fd ∧
    FarmerExtensiveForm.build_deterministic_model fd = Ok fd' ∧
    FarmerExtensiveForm.deterministic_model fd' = Some md ∧
    FarmerExtensiveForm.__init__ (FarmerExtensiveForm.WList ["fair"]) = Ok fe ∧
    FarmerExtensiveForm.build_extensive_form_model fe = Ok fe' ∧
    FarmerExtensiveForm.extensive_form_model fe' = Some me ∧
    eval (only (V "w" ["fair"; "wheat"]) 3) (model_obj me) == -170 ∧
    eval (only (V "w" ["fair"; "wheat"]) 3 ∘ lift "fair") (model_obj md) == -510 ∧
    ¬ (eval (only (V "w" ["fair"; "wheat"]) 3) (model_obj me)
       == eval (only (V "w" ["fair"; "wheat"]) 3 ∘ lift "fair") (model_obj md)).
Proof.
  do 6 eexists.
  split; [reflexivity |]. split; [reflexivity |]. split; [reflexivity |].
  split; [reflexivity |]. split; [reflexivity |]. split; [reflexivity |].
  split; [reflexivity |]. split; [reflexivity |].
  intros H. vm_compute in H. discriminate H.
Qed.

(** C2, as the code has it.  For every recognized label [s], the model
    aggregated from the scenario list [[s]] has the variables of the
    deterministic model built for [s] (the second-stage ones carrying the
    scenario index) and exactly its feasible region.  Its objective is
    not the deterministic one: the deterministic objective is planting
    cost - selling revenue + purchasing cost, the aggregated one is
    planting cost - 1/3 selling revenue + 1/3 purchasing cost. *)
Theorem single_scenario_same_region_scaled_recourse (s : string) :
  recognized s = true →
  ∃ fd fd' md fe fe' me,
    FarmerExtensiveForm.__init__ (FarmerExtensiveForm.WStr s) = Ok fd ∧
    FarmerExtensiveForm.build_deterministic_model fd = Ok fd' ∧
    FarmerExtensiveForm.deterministic_model fd' = Some md ∧
    FarmerExtensiveForm.__init__ (FarmerExtensiveForm.WList [s]) = Ok fe ∧
    FarmerExtensiveForm.build_extensive_form_model fe = Ok fe' ∧
    FarmerExtensiveForm.extensive_form_model fe' = Some me ∧
    model_vars me = map (lift s) (model_vars md) ∧
    (∀ rho, feasible me rho ↔ feasible md (rho ∘ lift s)) ∧
    (∀ rho,
       let P := planting_value (FarmerExtensiveForm.planting_cost fe)
                  (FarmerExtensiveForm.planting_crops fe) rho in
       let S := selling_value (FarmerExtensiveForm.selling_price fe)
                  (FarmerExtensiveForm.selling_crops fe) [s] rho in
       let U := purchasing_value (FarmerExtensiveForm.purchase_price fe)
                  (FarmerExtensiveForm.purchasing_crops fe) [s] rho in
       eval (rho ∘ lift s) (model_obj md) == P - S + U ∧
       eval rho (model_obj me) == P - (1/3) * S + (1/3) * U).
Proof.
  intros Hs.
  destruct (recognized_cases s Hs) as [-> | [-> | ->]];
    (do 6 eexists;
     split; [reflexivity |]; split; [reflexivity |]; split; [reflexivity |];
     split; [reflexivity |]; split; [reflexivity |]; split; [reflexivity |];
     split; [reflexivity |]; split;
     [ apply feasible_rename; reflexivity
     | intros rho; unfold planting_value, selling_value, purchasing_value,
         coefficient; cbn; eval_lookups; eval_lifts; split; field ]).
Qed.

Lemma single_scenario_same_region_scaled_recourse_witness :
  ∃ fd fd' md fe fe' me,
    FarmerExtensiveForm.__init__ (FarmerExtensiveForm.WStr "bad") = Ok fd ∧
    FarmerExtensiveForm.build_deterministic_model fd = Ok fd' ∧
    FarmerExtensiveForm.deterministic_model fd' = Some md ∧
    FarmerExtensiveForm.__init__ (FarmerExtensiveForm.WList ["bad"]) = Ok fe ∧
    FarmerExtensiveForm.build_extensive_form_model fe = Ok fe' ∧
    FarmerExtensiveForm.extensive_form_model fe' = Some me ∧
    ∀ rho, feasible me rho ↔ feasible md (rho ∘ lift "bad").
Proof.
  destruct (single_scenario_same_region_scaled_recourse "bad" eq_refl)
    as (fd & fd' & md & fe & fe' & me & H1 & H2 & H3 & H4 & H5 & H6 & _ & H & _).
  exists fd, fd', md, fe, fe', me. repeat (split; [assumption |]). exact H.
Defined.

(** ** Building twice (C8) *)

(** C8.  Building a deterministic model twice from the same scenario
    object gives structurally identical models: the same variable groups
    over the same index domains (the crop lists of the template), the
    same objective and the same constraint rows.  The builder reads no
    global state; the creator of a recognized label overwrites the global
    [predicted_yield] before reading it, so the model it returns for that
    label does not depend on what was created before. *)
Theorem building_twice_gives_identical_models :
  (∀ scenario m1 m2,
     Farmer3Scenarios.build_deterministic_model scenario = Ok m1 →
     Farmer3Scenarios.build_deterministic_model scenario = Ok m2 →
     m1 = m2 ∧
     model_x m1 = singletons (Farmer3Scenarios.planting_crops scenario) ∧
     model_x m2 = singletons (Farmer3Scenarios.planting_crops scenario) ∧
     model_w m1 = singletons (Farmer3Scenarios.selling_crops scenario) ∧
     model_w m2 = singletons (Farmer3Scenarios.selling_crops scenario) ∧
     model_y m1 = singletons (Farmer3Scenarios.purchasing_crops scenario) ∧
     model_y m2 = singletons (Farmer3Scenarios.purchasing_crops scenario) ∧
     model_obj m1 = model_obj m2 ∧
     model_constraints m1 = model_constraints m2) ∧
  (∀ w g1 g2,
     recognized w = true →
     ∃ m, Farmer3Scenarios.scenario_creator w g1
          = Ok (m, Some (label_multiplier w)) ∧
          Farmer3Scenarios.scenario_creator w g2
          = Ok (m, Some (label_multiplier w))).
Proof.
  split.
  - intros scenario m1 m2 H1 H2.
    assert (m1 = m2) as <- by congruence.
    apply build_deterministic_model_meaning in H1 as (Hx & Hw & Hy & _).
    by repeat split.
  - intros w g1 g2 Hw.
    destruct (recognized_cases w Hw) as [-> | [-> | ->]];
      eexists; split; reflexivity.
Qed.

Lemma building_twice_gives_identical_models_witness :
  ∃ m, Farmer3Scenarios.scenario_creator "good" None
       = Ok (m, Some (label_multiplier "good")) ∧
       Farmer3Scenarios.scenario_creator "good" (Some 0.8)
       = Ok (m, Some (label_multiplier "good")).
Proof.
  apply (proj2 building_twice_gives_identical_models "good" None (Some 0.8)).
  reflexivity.
Defined.

Lemma flat_attributes_same_template (a b : FarmerExtensiveForm.Farmer) :
  same_template a b → flat_attributes a = flat_attributes b.
Proof.
  unfold same_template, flat_attributes.
  intros (_ & -> & -> & -> & -> & -> & -> & -> & -> & -> & -> & ->).
  reflexivity.
Qed.

(** X10.  The method of the extensive-form file attaches its model to the
    object; building again on the object it returns gives the same
    model. *)
Lemma rebuilding_on_the_returned_object
    (self f1 f2 : FarmerExtensiveForm.Farmer) :
  FarmerExtensiveForm.build_deterministic_model self = Ok f1 →
  FarmerExtensiveForm.build_deterministic_model f1 = Ok f2 →
  FarmerExtensiveForm.deterministic_model f2
  = FarmerExtensiveForm.deterministic_model f1.
Proof.
  intros H1 H2.
  pose proof (deterministic_builder_frame _ _ H1) as (Hsame & _ & _).
  apply flat_attributes_same_template in Hsame.
  apply method_builds_as_function in H1
    as (m1 & m1' & -> & Hb1 & Hx1 & Hw1 & Hy1 & Ho1 & Hc1 & He1 & Hp1).
  apply method_builds_as_function in H2
    as (m2 & m2' & -> & Hb2 & Hx2 & Hw2 & Hy2 & Ho2 & Hc2 & He2 & Hp2).
  rewrite <- Hsame, Hb1 in Hb2. injection Hb2 as <-.
  destruct m1, m2. cbn in *. congruence.
Qed.

(** ** Normalized probabilities (C7) *)


Section Bins.

Variable norm_cdf : Q → Q.





End Bins.






Section Probabilities.

Variable norm_cdf : Q → Q.






Hypothesis cdf_proper : ∀ a b, a == b → norm_cdf a == norm_cdf b.


Hypothesis cdf_spread :
  ¬ norm_cdf (FarmerNScenariosPH.mu
              + FarmerNScenariosPH.z * FarmerNScenariosPH.sigma)
    == norm_cdf (FarmerNScenariosPH.mu
                 - FarmerNScenariosPH.z * FarmerNScenariosPH.sigma).


End Probabilities.





(** Every entry of [demand] is counted under exactly one of the distinct
    keys. *)
Lemma indicator_sum (a : Z) (keys : list Z) :
  NoDup keys → a ∈ keys →
  sum_list (map (λ k, if Z.eq_dec a k then 1%nat else 0%nat) keys) = 1%nat.
Proof.
  induction 1 as [| k keys Hk Hnd IH]; intros Ha; [inversion Ha |].
  cbn [map sum_list]. destruct (Z.eq_dec a k) as [-> | Hne].
  - assert (sum_list (map (λ k', if Z.eq_dec k k' then 1%nat else 0%nat) keys)
            = 0%nat) as ->; [| reflexivity].
    clear IH Ha Hnd. induction keys as [| k' keys IH]; [reflexivity |].
    apply not_elem_of_cons in Hk as [Hne Hk]. cbn [map sum_list].
    destruct (Z.eq_dec k k'); [congruence |]. by rewrite IH.
  - apply elem_of_cons in Ha as [-> | Ha]; [congruence |]. by rewrite IH.
Qed.

Lemma count_sum (demand keys : list Z) :
  NoDup keys → (∀ a, a ∈ demand → a ∈ keys) →
  sum_list (map (count_occ Z.eq_dec demand) keys) = length demand.
Proof.
  intros Hnd. induction demand as [| a demand IH]; intros Hin.
  - clear Hnd Hin. induction keys as [| k keys IHk]; [reflexivity | exact IHk].
  - cbn [length]. rewrite <- IH by (intros b Hb; apply Hin; by constructor).
    pose proof (indicator_sum a keys Hnd (Hin a ltac:(constructor))) as H1.
    change (S ?x) with (1 + x)%nat. rewrite <- H1.
    clear. induction keys as [| k keys IHk]; [reflexivity |].
    cbn [map sum_list]. rewrite IHk. cbn [count_occ].
    destruct (Z.eq_dec a k); unfold id; lia.
Qed.


Lemma distinct_sorted_spec (demand : list Z) :
  NoDup (NewsVendorSampling.distinct_sorted demand) ∧
  ∀ a, a ∈ demand → a ∈ NewsVendorSampling.distinct_sorted demand.
Proof.
  unfold NewsVendorSampling.distinct_sorted. split.
  - rewrite merge_sort_Permutation. apply NoDup_elements.
  - intros a Ha. rewrite merge_sort_Permutation.
    by apply elem_of_elements, elem_of_list_to_set.
Qed.

(** The loop inserts one entry per key. *)
Lemma fill_p_spec (demand : list Z) (n : nat) (keys : list Z) :
  n ≠ 0%nat →
  ∀ p, NewsVendorSampling.fill_p keys demand n p
       = Ok (foldl (λ p d, <[d := inject_Z (Z.of_nat (count_occ Z.eq_dec demand d))
                                  / inject_Z (Z.of_nat n)]> p) p keys).
Proof.
  intros Hn. induction keys as [| d keys IH]; intros p; simpl; [reflexivity |].
  rewrite decide_False by exact Hn. apply IH.
Qed.


Lemma filled_table_lookup (g : Z → Q) (keys : list Z) (d : Z) :
  ∀ p : gmap Z Q,
    foldl (λ p d, <[d := g d]> p) p keys !! d
    = if decide (d ∈ keys) then Some (g d) else p !! d.
Proof.
  induction keys as [| k keys IH]; intros p; cbn [foldl].
  - rewrite decide_False; [reflexivity | apply not_elem_of_nil].
  - rewrite IH. destruct (decide (d ∈ keys)) as [Hin | Hnin].
    + rewrite decide_True; [reflexivity | by constructor].
    + destruct (decide (d = k)) as [-> | Hne].
      * rewrite lookup_insert_eq, decide_True; [reflexivity | constructor].
      * rewrite lookup_insert_ne by congruence.
        rewrite decide_False; [reflexivity |].
        by intros [-> | ?]%elem_of_cons.
Qed.

Lemma distinct_sorted_elem_of (demand : list Z) (a : Z) :
  a ∈ NewsVendorSampling.distinct_sorted demand ↔ a ∈ demand.
Proof.
  unfold NewsVendorSampling.distinct_sorted.
  rewrite merge_sort_Permutation, elem_of_elements, elem_of_list_to_set.
  reflexivity.
Qed.



(** ** Rounded normalization *)


Lemma rounds_exact (u x : Q) : 0 <= u → rounds u x x.
Proof.
  intros Hu. unfold rounds.
  assert (x - x == 0) as -> by ring. cbn [Qabs].
  apply Qmult_le_0_compat; [exact Hu | apply Qabs_nonneg].
Qed.


Lemma Qsum_nonneg (xs : list Q) : Forall (Qle 0) xs → 0 <= Qsum xs.
Proof.
  induction 1 as [| x xs Hx _ IH]; [apply Qle_refl |].
  cbn [Qsum foldr]. change (foldr Qplus 0 ?l) with (Qsum l). lra.
Qed.




(** ** The rounded runs of the two normalizations *)

Section RoundedRuns.

Variable fl : Q → Q.
Variable u : Q.
Hypothesis fl_rounds : ∀ x, rounds u x (fl x).







End RoundedRuns.




(** * Further properties of the modelled code *)

(** ** When the constructors return *)

Lemma predict_keeps_bound (w : string) (p : Q) :
  ∃ p', predict w (Some p) = Some p'.
Proof. unfold predict. repeat case_decide; eauto. Qed.

Lemma predict_None (w : string) :
  predict w None = None ↔ recognized w = false.
Proof.
  split.
  - intros H. destruct (recognized w) eqn:E; [| reflexivity].
    rewrite (predict_recognized w None E) in H. discriminate H.
  - intros H. by rewrite predict_unrecognized.
Qed.

Lemma crop_yield_scenarios_bound (ws : list string) :
  ∀ p acc, returns (FarmerExtensiveForm.crop_yield_scenarios ws (Some p) acc).
Proof.
  induction ws as [| w ws IH]; intros p acc; simpl.
  - apply returns_Ok.
  - destruct (predict_keeps_bound w p) as [p' ->]. simpl. apply IH.
Qed.

(** X1.  Whether a constructor returns is decided by the first label alone: a
    string argument must be recognized; of a list only the first label
    must be, every later label finds [predicted_yield] bound; the
    constructor of the mpi-sppy file returns on an unrecognized label as
    soon as the global is bound. *)
Theorem constructor_returns_iff_first_label_binds :
  (∀ w, returns (FarmerExtensiveForm.__init__ (FarmerExtensiveForm.WStr w))
        ↔ recognized w = true) ∧
  (∀ ws, returns (FarmerExtensiveForm.__init__ (FarmerExtensiveForm.WList ws))
         ↔ ws = [] ∨ ∃ w rest, ws = w :: rest ∧ recognized w = true) ∧
  (∀ w g, returns (Farmer3Scenarios.__init__ w g)
          ↔ recognized w = true ∨ is_Some g).
Proof.
  split; [| split].
  - intros w. unfold FarmerExtensiveForm.__init__. split.
    + intros [f H]. destruct (recognized w) eqn:E; [reflexivity |].
      rewrite (predict_unrecognized w None E) in H. discriminate H.
    + intros E. rewrite (predict_recognized w None E). apply returns_Ok.
  - intros ws. unfold FarmerExtensiveForm.__init__. split.
    + intros [f H]. destruct ws as [| w rest]; [by left | right].
      exists w, rest. split; [reflexivity |].
      destruct (recognized w) eqn:E; [reflexivity |].
      simpl in H. rewrite (predict_unrecognized w None E) in H.
      discriminate H.
    + intros [-> | (w & rest & -> & E)]; [apply returns_Ok |].
      simpl. rewrite (predict_recognized w None E). simpl.
      destruct (crop_yield_scenarios_bound rest (label_multiplier w)
                  (<[w := yield_dict (label_multiplier w)]> ∅)) as [d ->].
      apply returns_Ok.
  - intros w g. unfold Farmer3Scenarios.__init__. split.
    + intros [f H]. destruct (recognized w) eqn:E; [by left | right].
      rewrite (predict_unrecognized w g E) in H.
      destruct g; [by eexists | discriminate H].
    + intros [E | [p ->]].
      * rewrite (predict_recognized w g E). apply returns_Ok.
      * destruct (predict_keeps_bound w p) as [p' ->]. apply returns_Ok.
Qed.

(** ** A label the creator does not know *)

(** X2.  After a scenario has been created, creating a scenario for an
    unrecognized label returns the model of the scenario created last,
    and leaves the global as it was. *)
Theorem unrecognized_label_gets_previous_model (w0 w : string)
    (g g0 : Farmer3Scenarios.globals) (m0 : Model) :
  Farmer3Scenarios.scenario_creator w0 g = Ok (m0, g0) →
  recognized w = false →
  Farmer3Scenarios.scenario_creator w g0 = Ok (m0, g0).
Proof.
  intros H Hw. unfold Farmer3Scenarios.scenario_creator in *.
  unfold Farmer3Scenarios.__init__ in *.
  destruct (predict w0 g) as [p |]; [| discriminate H].
  cbn [read_name mbind result_bind] in H.
  destruct (Farmer3Scenarios.build_deterministic_model _) as [m |] eqn:Hm;
    [| discriminate H].
  cbn [mbind result_bind] in H. injection H as <- <-.
  rewrite (predict_unrecognized w (Some p) Hw).
  cbn [read_name mbind result_bind]. rewrite Hm. reflexivity.
Qed.

Lemma unrecognized_label_gets_previous_model_witness :
  ∃ m0 g0,
    Farmer3Scenarios.scenario_creator "good" None = Ok (m0, g0) ∧
    Farmer3Scenarios.scenario_creator "rainy" g0 = Ok (m0, g0).
Proof.
  do 2 eexists. split; [reflexivity |].
  eapply (unrecognized_label_gets_previous_model "good" "rainy" None);
    reflexivity.
Defined.

(** ** The deterministic builder on a list of scenarios *)

Lemma mapM_cons {A B : Type} (f : A → result B) (a : A) (l : list A) :
  mapM f (a :: l) = (b ← f a; k ← mapM f l; Ok (b :: k)).
Proof. reflexivity. Qed.

(** Evaluates the first step of a chain when it is a closed term. *)
Ltac eval_closed_head :=
  match goal with
  | |- (?m ≫= _) = _ =>
      let r := eval vm_compute in m in change m with r
  end;
  cbn [mbind result_bind].

(** X3.  On an object constructed from a list of recognized labels the
    deterministic builder stops with [KeyError]: [self.crop_yield] is
    keyed by label there, and the first required crop is not a label. *)
Theorem deterministic_builder_rejects_label_lists (ws : list string)
    (f : FarmerExtensiveForm.Farmer) :
  Forall (λ w, recognized w = true) ws →
  FarmerExtensiveForm.__init__ (FarmerExtensiveForm.WList ws) = Ok f →
  FarmerExtensiveForm.build_deterministic_model f = Raise "KeyError".
Proof.
  intros Hws H. unfold FarmerExtensiveForm.__init__ in H.
  destruct (crop_yield_scenarios_recognized ws Hws None ∅) as (d & Hd & Hlook).
  rewrite Hd in H. cbn [mbind result_bind] in H. injection H as <-.
  assert (d !! "wheat" = None) as Hwheat.
  { rewrite (proj2 (Hlook "wheat")); [apply lookup_empty |].
    intros Hin. apply (proj1 (Forall_forall _ _) Hws) in Hin.
    discriminate Hin. }
  unfold FarmerExtensiveForm.build_deterministic_model.
  cbn [FarmerExtensiveForm.crop_yield FarmerExtensiveForm.total_acres
       FarmerExtensiveForm.planting_cost FarmerExtensiveForm.planting_crops
       FarmerExtensiveForm.selling_price FarmerExtensiveForm.selling_crops
       FarmerExtensiveForm.min_requirement FarmerExtensiveForm.purchase_price
       FarmerExtensiveForm.purchasing_crops FarmerExtensiveForm.required_crops
       FarmerExtensiveForm.beets_quota].
  cbv zeta.
  do 4 eval_closed_head.
  rewrite mapM_cons.
  rewrite (getvar_in "x" _ ["wheat"]) by solve_in.
  cbn [mbind result_bind FarmerExtensiveForm.yield_of]. 
  assert (getitem d "wheat" = Raise "KeyError") as ->
    by (unfold getitem; by rewrite Hwheat).
  reflexivity.
Qed.

Lemma deterministic_builder_rejects_label_lists_witness :
  ∃ f, FarmerExtensiveForm.__init__
         (FarmerExtensiveForm.WList ["good"; "fair"; "bad"]) = Ok f ∧
       FarmerExtensiveForm.build_deterministic_model f = Raise "KeyError".
Proof.
  eexists. split; [reflexivity |].
  apply (deterministic_builder_rejects_label_lists ["good"; "fair"; "bad"]).
  - repeat constructor.
  - reflexivity.
Defined.

(** ** Size of the extensive form *)

Lemma product_cons (a : string) (A B : list string) :
  product (a :: A) B = (map (λ b, [a; b]) B ++ product A B)%list.
Proof.
  unfold product. cbn [mbind list_bind].
  f_equal; try (induction B as [| b B IH]; [reflexivity |]; cbn; by rewrite IH).
Qed.

Lemma product_length (A B : list string) :
  length (product A B) = (length A * length B)%nat.
Proof.
  induction A as [| a A IH]; [reflexivity |].
  rewrite product_cons, length_app, length_map, IH. reflexivity.
Qed.

Lemma pairs_length (A B : list string) :
  length (FarmerExtensiveForm.pairs A B) = (length A * length B)%nat.
Proof.
  induction A as [| a A IH]; [reflexivity |].
  rewrite pairs_cons, length_app, length_map, IH. reflexivity.
Qed.

Lemma mapM_length {A B : Type} (f : A → result B) (l : list A) (k : list B) :
  mapM f l = Ok k → length k = length l.
Proof. intros H. apply mapM_Ok in H. symmetry. eapply Forall2_length, H. Qed.

(** Every result of a generator satisfies what each of its steps
    guarantees. *)
Lemma mapM_Forall {A B : Type} (f : A → result B) (P : B → Prop)
    (l : list A) (k : list B) :
  mapM f l = Ok k → (∀ a b, f a = Ok b → P b) → Forall P k.
Proof.
  intros H HP. apply mapM_Ok in H.
  induction H as [| a b l k Hab _ IH]; constructor; eauto.
Qed.

Lemma filter_all {A : Type} (P : A → Prop) `{∀ a, Decision (P a)} (l : list A) :
  Forall P l → filter P l = l.
Proof.
  induction 1 as [| a l Ha _ IH]; [reflexivity |].
  rewrite filter_cons_True by exact Ha. by rewrite IH.
Qed.

Lemma filter_none {A : Type} (P : A → Prop) `{∀ a, Decision (P a)} (l : list A) :
  Forall (λ a, ¬ P a) l → filter P l = [].
Proof.
  induction 1 as [| a l Ha _ IH]; [reflexivity |].
  rewrite filter_cons_False by exact Ha. exact IH.
Qed.

(** X4.  When no scenario label and no crop is listed twice, the extensive
    form of [n] scenarios has one land variable per plantable crop, [n]
    selling variables per sellable product, [n] purchasing variables per
    purchasable product, [n] times (the number of required crops plus
    two) scenario-indexed rows, and a single row without scenario
    index. *)
Theorem extensive_form_size (self f' : FarmerExtensiveForm.Farmer)
    (ws : list string) (m : Model) :
  FarmerExtensiveForm.weathers self = FarmerExtensiveForm.WList ws →
  NoDup ws →
  NoDup (FarmerExtensiveForm.planting_crops self) →
  NoDup (FarmerExtensiveForm.selling_crops self) →
  NoDup (FarmerExtensiveForm.purchasing_crops self) →
  NoDup (FarmerExtensiveForm.required_crops self) →
  FarmerExtensiveForm.build_extensive_form_model self = Ok f' →
  FarmerExtensiveForm.extensive_form_model f' = Some m →
  length (model_x m) = length (FarmerExtensiveForm.planting_crops self) ∧
  length (model_w m)
  = (length ws * length (FarmerExtensiveForm.selling_crops self))%nat ∧
  length (model_y m)
  = (length ws * length (FarmerExtensiveForm.purchasing_crops self))%nat ∧
  length (indexed_rows m)
  = (length ws * (length (FarmerExtensiveForm.required_crops self) + 2))%nat ∧
  length (scalar_rows m) = 1%nat.
Proof.
  intros Hws _ _ _ _ _ H Hm.
  unfold FarmerExtensiveForm.build_extensive_form_model in H.
  rewrite Hws in H. cbn [FarmerExtensiveForm.scenario_set mbind result_bind] in H.
  cbv zeta in H.
  apply bind_Ok in H as (planting & _ & H).
  apply bind_Ok in H as (selling & _ & H).
  apply bind_Ok in H as (purchasing & _ & H).
  apply bind_Ok in H as (acres & _ & H).
  apply bind_Ok in H as (minreq & Hminreq & H).
  apply bind_Ok in H as (balance & Hbalance & H).
  apply bind_Ok in H as (quota & Hquota & H).
  injection H as <-. cbn [FarmerExtensiveForm.extensive_form_model] in Hm.
  injection Hm as <-. cbn [model_x model_w model_y].
  split; [apply length_map |]. split; [apply product_length |].
  split; [apply product_length |].
  assert (Forall (λ ir : list string * row, ir.1 ≠ []) minreq) as Hi1.
  { eapply mapM_Forall; [exact Hminreq |]. intros [s c] ir Hir.
    repeat bind_inv Hir. by injection Hir as <-. }
  assert (Forall (λ ir : list string * row, ir.1 ≠ []) balance) as Hi2.
  { eapply mapM_Forall; [exact Hbalance |]. intros s ir Hir.
    repeat bind_inv Hir. by injection Hir as <-. }
  assert (Forall (λ ir : list string * row, ir.1 ≠ []) quota) as Hi3.
  { eapply mapM_Forall; [exact Hquota |]. intros s ir Hir.
    repeat bind_inv Hir. by injection Hir as <-. }
  apply mapM_length in Hminreq, Hbalance, Hquota.
  rewrite pairs_length in Hminreq.
  unfold indexed_rows, scalar_rows, model_rows.
  cbn [model_constraints mbind list_bind scalar con_rows app].
  rewrite app_nil_r.
  rewrite filter_cons_False by (cbn; tauto).
  rewrite filter_cons_True by reflexivity.
  rewrite !filter_app.
  rewrite (filter_all _ minreq Hi1), (filter_all _ balance Hi2),
    (filter_all _ quota Hi3).
  rewrite (filter_none (λ ir, ir.1 = []) minreq),
    (filter_none (λ ir, ir.1 = []) balance),
    (filter_none (λ ir, ir.1 = []) quota) by assumption.
  rewrite !length_app, Hminreq, Hbalance, Hquota. cbn [length app]. lia.
Qed.

Lemma extensive_form_size_witness :
  ∃ self f' m,
    FarmerExtensiveForm.__init__ (FarmerExtensiveForm.WList ["good"; "bad"])
    = Ok self ∧
    FarmerExtensiveForm.build_extensive_form_model self = Ok f' ∧
    FarmerExtensiveForm.extensive_form_model f' = Some m ∧
    length (model_w m) = 8%nat ∧ length (indexed_rows m) = 8%nat.
Proof.
  do 3 eexists. split; [reflexivity |].
  match goal with
  | |- FarmerExtensiveForm.build_extensive_form_model ?s = _ ∧ _ =>
      set (self := s)
  end.
  split; [reflexivity |]. split; [reflexivity |].
  match goal with
  | |- length (model_w ?m) = _ ∧ _ =>
      pose proof (extensive_form_size self _ ["good"; "bad"] m
                    eq_refl
                    ltac:(refine (bool_decide_unpack _ _); vm_compute; exact I)
                    ltac:(refine (bool_decide_unpack _ _); vm_compute; exact I)
                    ltac:(refine (bool_decide_unpack _ _); vm_compute; exact I)
                    ltac:(refine (bool_decide_unpack _ _); vm_compute; exact I)
                    ltac:(refine (bool_decide_unpack _ _); vm_compute; exact I)
                    eq_refl eq_refl) as (_ & Hw & _ & Hi & _)
  end.
  split; [exact Hw | exact Hi].
Defined.

(** ** The rows of the extensive form, scenario by scenario *)

Lemma elem_of_pairs_2 (a b : string) (A B : list string) :
  a ∈ A → b ∈ B → (a, b) ∈ FarmerExtensiveForm.pairs A B.
Proof.
  intros Ha Hb. unfold FarmerExtensiveForm.pairs.
  apply list_elem_of_bind. exists a. split; [| exact Ha].
  apply list_elem_of_bind. exists b. split; [constructor | exact Hb].
Qed.

Lemma yield_in_Ok (self : FarmerExtensiveForm.Farmer) (s c : string) (y : Q) :
  FarmerExtensiveForm.yield_in (FarmerExtensiveForm.crop_yield self) s c = Ok y →
  coefficient (Farmer3Scenarios.crop_yield (scenario_attributes_in self s)) c = y.
Proof.
  unfold FarmerExtensiveForm.yield_in, scenario_attributes_in.
  cbn [Farmer3Scenarios.crop_yield].
  destruct (FarmerExtensiveForm.crop_yield self) as [d | d]; intros H.
  - apply bind_Ok in H as (? & _ & H). discriminate H.
  - apply bind_Ok in H as (ds & Hds & H). unfold getitem in Hds.
    destruct (d !! s) as [ds' |]; [| discriminate Hds].
    injection Hds as ->. by apply getitem_Ok.
Qed.

(** X5.  The rows of the extensive form hold exactly when the total-acreage
    row holds and, for every scenario of the list, the four constraint
    families of that scenario's deterministic model hold on the shared
    land variables and the scenario's own second-stage variables. *)
Theorem extensive_form_rows_by_scenario (self f' : FarmerExtensiveForm.Farmer) :
  FarmerExtensiveForm.build_extensive_form_model self = Ok f' →
  ∃ ws m,
    FarmerExtensiveForm.weathers self = FarmerExtensiveForm.WList ws ∧
    FarmerExtensiveForm.extensive_form_model f' = Some m ∧
    ∀ rho,
      Forall (λ ir, row_holds rho ir.2) (model_rows m)
      ↔ Qsum (map (λ crop, rho (V "x" [crop]))
                  (FarmerExtensiveForm.planting_crops self))
          <= FarmerExtensiveForm.total_acres self ∧
        ∀ s, s ∈ ws →
          deterministic_constraints (scenario_attributes_in self s)
                                    (rho ∘ lift s).
Proof.
  intros H. unfold FarmerExtensiveForm.build_extensive_form_model in H.
  apply bind_Ok in H as (ws & Hws & H). cbv zeta in H.
  apply bind_Ok in H as (planting & _ & H).
  apply bind_Ok in H as (selling & _ & H).
  apply bind_Ok in H as (purchasing & _ & H).
  apply bind_Ok in H as (acres & Hacres & H).
  apply bind_Ok in H as (minreq & Hminreq & H).
  apply bind_Ok in H as (balance & Hbalance & H).
  apply bind_Ok in H as (quota & Hquota & H).
  injection H as <-.
  destruct (FarmerExtensiveForm.weathers self) as [w | ws'] eqn:Ew;
    [discriminate Hws | injection Hws as ->].
  exists ws. eexists. split; [reflexivity |]. split; [reflexivity |].
  intros rho. unfold model_rows.
  cbn [model_constraints mbind list_bind scalar con_rows app].
  rewrite app_nil_r, Forall_cons, !Forall_app.
  unfold row_holds at 1. cbn [snd row_sense lhs rhs eval].
  rewrite (eval_generated_sum rho _ (λ crop, rho (V "x" [crop])) _ _ Hacres)
    by (intros a t _ Ht; apply getvar_Ok in Ht as [-> _]; reflexivity).
  rewrite (generated_rows_hold rho _
    (λ sc, rho (V "x" [sc.2])
           * coefficient (Farmer3Scenarios.crop_yield
                            (scenario_attributes_in self sc.1)) sc.2
           + rho (V "y" [sc.1; sc.2]) - rho (V "w" [sc.1; sc.2])
           >= coefficient (FarmerExtensiveForm.min_requirement self) sc.2)
    _ _ Hminreq).
  2:{ intros [s c] ir _ Hir.
      apply bind_Ok in Hir as (xv & Hxv & Hir).
      apply bind_Ok in Hir as (y1 & Hy1 & Hir).
      apply bind_Ok in Hir as (yv & Hyv & Hir).
      apply bind_Ok in Hir as (wv & Hwv & Hir).
      apply bind_Ok in Hir as (req & Hreq & Hir).
      injection Hir as <-.
      apply getvar_Ok in Hxv as [-> _]. apply getvar_Ok in Hyv as [-> _].
      apply getvar_Ok in Hwv as [-> _].
      apply yield_in_Ok in Hy1 as <-. apply getitem_Ok in Hreq as <-.
      reflexivity. }
  rewrite (generated_rows_hold rho _
    (λ s, rho (V "w" [s; "beets_favorable"])
          + rho (V "w" [s; "beets_unfavorable"])
          <= coefficient (Farmer3Scenarios.crop_yield
                            (scenario_attributes_in self s)) "beets"
             * rho (V "x" ["beets"]))
    _ _ Hbalance).
  2:{ intros s ir _ Hir.
      apply bind_Ok in Hir as (wf & Hwf & Hir).
      apply bind_Ok in Hir as (wu & Hwu & Hir).
      apply bind_Ok in Hir as (yld & Hyld & Hir).
      apply bind_Ok in Hir as (xb & Hxb & Hir).
      injection Hir as <-.
      apply getvar_Ok in Hwf as [-> _]. apply getvar_Ok in Hwu as [-> _].
      apply getvar_Ok in Hxb as [-> _]. apply yield_in_Ok in Hyld as <-.
      reflexivity. }
  rewrite (generated_rows_hold rho _
    (λ s, rho (V "w" [s; "beets_favorable"])
          <= FarmerExtensiveForm.beets_quota self)
    _ _ Hquota).
  2:{ intros s ir _ Hir.
      apply bind_Ok in Hir as (wq & Hwq & Hir). injection Hir as <-.
      apply getvar_Ok in Hwq as [-> _]. reflexivity. }
  unfold deterministic_constraints.
  cbn [Farmer3Scenarios.planting_crops Farmer3Scenarios.total_acres
       Farmer3Scenarios.required_crops Farmer3Scenarios.min_requirement
       Farmer3Scenarios.beets_quota scenario_attributes_in].
  split.
  - intros (Hacre & Hreq & Hbal & Hquo). split; [exact Hacre |].
    intros s Hs. split; [exact Hacre |]. split; [| split].
    + intros crop Hcrop. apply (Hreq (s, crop)).
      by apply elem_of_pairs_2.
    + by apply Hbal.
    + by apply Hquo.
  - intros [Hacre Hall]. split; [exact Hacre |]. split; [| split].
    + intros [s crop] Hsc. apply elem_of_pairs in Hsc as [Hs Hcrop].
      destruct (Hall s Hs) as (_ & Hreq & _). by apply Hreq.
    + intros s Hs. by destruct (Hall s Hs) as (_ & _ & Hbal & _).
    + intros s Hs. by destruct (Hall s Hs) as (_ & _ & _ & Hquo).
Qed.

Lemma extensive_form_rows_by_scenario_witness :
  ∃ self f',
    FarmerExtensiveForm.__init__ (FarmerExtensiveForm.WList ["good"; "bad"])
    = Ok self ∧
    FarmerExtensiveForm.build_extensive_form_model self = Ok f' ∧
    ∃ ws m,
      FarmerExtensiveForm.weathers self = FarmerExtensiveForm.WList ws ∧
      FarmerExtensiveForm.extensive_form_model f' = Some m ∧
      ∀ rho,
        Forall (λ ir, row_holds rho ir.2) (model_rows m)
        ↔ Qsum (map (λ crop, rho (V "x" [crop]))
                    (FarmerExtensiveForm.planting_crops self))
            <= FarmerExtensiveForm.total_acres self ∧
          ∀ s, s ∈ ws →
            deterministic_constraints (scenario_attributes_in self s)
                                      (rho ∘ lift s).
Proof.
  do 2 eexists. split; [reflexivity |].
  match goal with
  | |- FarmerExtensiveForm.build_extensive_form_model ?s = _ ∧ _ =>
      set (self := s)
  end.
  split; [reflexivity |].
  match goal with
  | |- ∃ ws m, _ ∧ FarmerExtensiveForm.extensive_form_model ?f = _ ∧ _ =>
      exact (extensive_form_rows_by_scenario self f eq_refl)
  end.
Defined.

(** ** The probability table of the news vendor *)

(** X6.  The table has exactly the sampled demands as keys; the entry of a
    demand is its number of occurrences over the number of scenarios, a
    probability in (0, 1]. *)
Theorem vendor_table_entries (n : nat) (uniform : list Q) :
  (1 ≤ n)%nat → length uniform = n →
  ∃ v, NewsVendorSampling.__init__ n uniform = Ok v ∧
       (∀ d, NewsVendorSampling.p v !! d
             = if decide (d ∈ NewsVendorSampling.demand v)
               then Some (inject_Z (Z.of_nat
                            (count_occ Z.eq_dec (NewsVendorSampling.demand v) d))
                          / inject_Z (Z.of_nat n))
               else None) ∧
       (∀ d pd, NewsVendorSampling.p v !! d = Some pd → 0 < pd ∧ pd <= 1).
Proof.
  intros Hn Hlen. unfold NewsVendorSampling.__init__. cbv zeta.
  rewrite fill_p_spec by lia. cbn [mbind result_bind].
  eexists. split; [reflexivity |].
  cbn [NewsVendorSampling.p NewsVendorSampling.demand].
  assert (Hlook : ∀ d,
    foldl (λ p d, <[d := inject_Z (Z.of_nat
                           (count_occ Z.eq_dec (map around uniform) d))
                         / inject_Z (Z.of_nat n)]> p) (∅ : gmap Z Q)
          (NewsVendorSampling.distinct_sorted (map around uniform)) !! d
    = if decide (d ∈ map around uniform)
      then Some (inject_Z (Z.of_nat (count_occ Z.eq_dec (map around uniform) d))
                 / inject_Z (Z.of_nat n))
      else None).
  { intros d. rewrite filled_table_lookup.
    destruct (decide (d ∈ map around uniform)) as [Hin | Hnin].
    - rewrite decide_True; [reflexivity | by apply distinct_sorted_elem_of].
    - rewrite decide_False; [apply lookup_empty |].
      by rewrite distinct_sorted_elem_of. }
  split; [exact Hlook |].
  intros d pd Hpd. rewrite Hlook in Hpd.
  destruct (decide (d ∈ map around uniform)) as [Hin | Hnin];
    [| discriminate Hpd].
  injection Hpd as <-.
  assert (0 < count_occ Z.eq_dec (map around uniform) d)%nat as Hpos
    by (apply count_occ_In, list_elem_of_In, Hin).
  pose proof (count_occ_bound Z.eq_dec d (map around uniform)) as Hle.
  rewrite length_map, Hlen in Hle.
  assert (0 < inject_Z (Z.of_nat n)) as Hn0.
  { change 0 with (inject_Z 0). rewrite <- Zlt_Qlt. lia. }
  split.
  - apply Qlt_shift_div_l; [exact Hn0 |]. rewrite Qmult_0_l.
    change 0 with (inject_Z 0). rewrite <- Zlt_Qlt. lia.
  - apply Qle_shift_div_r; [exact Hn0 |]. rewrite Qmult_1_l.
    rewrite <- Zle_Qle. lia.
Qed.

Lemma vendor_table_entries_witness :
  ∃ v, NewsVendorSampling.__init__ 3 [50.2; 50.4; 149.9] = Ok v ∧
       ∀ d pd, NewsVendorSampling.p v !! d = Some pd → 0 < pd ∧ pd <= 1.
Proof.
  destruct (vendor_table_entries 3 [50.2; 50.4; 149.9]) as (v & Hv & _ & Hp);
    [lia | reflexivity |].
  exists v. split; assumption.
Defined.

(** ** The objective of the news vendor *)

(** A sum over a list with repetitions, regrouped by distinct value. *)
Lemma Qsum_grouped (f : Z → Q) (demand keys : list Z) :
  NoDup keys → (∀ a, a ∈ demand → a ∈ keys) →
  Qsum (map f demand)
  == Qsum (map (λ k, inject_Z (Z.of_nat (count_occ Z.eq_dec demand k)) * f k)
               keys).
Proof.
  intros Hnd. induction demand as [| a demand IH]; intros Hin.
  - cbn [map count_occ]. rewrite (Qsum_map_ext _ (λ _, 0)) by (intros; simpl; ring).
    rewrite Qsum_const. simpl. ring.
  - cbn [map Qsum foldr]. change (foldr Qplus 0 ?l) with (Qsum l).
    rewrite IH by (intros b Hb; apply Hin; by constructor).
    assert (Ha : a ∈ keys) by (apply Hin; constructor).
    clear IH Hin. induction Hnd as [| k keys Hk Hnd IHk]; [inversion Ha |].
    cbn [map Qsum foldr count_occ]. change (foldr Qplus 0 ?l) with (Qsum l).
    destruct (Z.eq_dec a k) as [-> | Hne].
    + rewrite Nat2Z.inj_succ. unfold Z.succ. rewrite inject_Z_plus.
      rewrite (Qsum_map_ext
                 (λ k0, inject_Z (Z.of_nat (count_occ Z.eq_dec (k :: demand) k0)) * f k0)
                 (λ k0, inject_Z (Z.of_nat (count_occ Z.eq_dec demand k0)) * f k0)).
      * ring.
      * intros k0 Hk0. cbn [count_occ].
        destruct (Z.eq_dec k k0) as [-> | _]; [contradiction | reflexivity].
    + apply elem_of_cons in Ha as [-> | Ha]; [congruence |].
      rewrite <- (IHk Ha). ring.
Qed.

Lemma vendor_created (n : nat) (uniform : list Q) :
  (1 ≤ n)%nat →
  ∃ v, NewsVendorSampling.__init__ n uniform = Ok v ∧
       NewsVendorSampling.demand v = map around uniform ∧
       NewsVendorSampling.c v = 10 ∧ NewsVendorSampling.q v = 25 ∧
       NewsVendorSampling.r v = 5 ∧
       ∀ d, d ∈ map around uniform →
            NewsVendorSampling.p v !! d
            = Some (inject_Z (Z.of_nat (count_occ Z.eq_dec (map around uniform) d))
                    / inject_Z (Z.of_nat n)).
Proof.
  intros Hn. unfold NewsVendorSampling.__init__. cbv zeta.
  rewrite fill_p_spec by lia. cbn [mbind result_bind].
  eexists. split; [reflexivity |]. repeat (split; [reflexivity |]).
  intros d Hd. cbn [NewsVendorSampling.p]. rewrite filled_table_lookup.
  rewrite decide_True; [reflexivity | by apply distinct_sorted_elem_of].
Qed.

Lemma bind_Ok_intro {A B : Type} (m : result A) (f : A → result B) (a : A)
    (b : B) :
  m = Ok a → f a = Ok b → m ≫= f = Ok b.
Proof. by intros ->. Qed.

Lemma sum_squares (c : Z → nat) (keys : list Z) :
  (sum_list (map c keys) ≤ sum_list (map (λ k, (c k * c k)%nat) keys))%nat ∧
  (sum_list (map (λ k, (c k * c k)%nat) keys) = sum_list (map c keys)
   ↔ Forall (λ k, c k ≤ 1)%nat keys).
Proof.
  induction keys as [| k keys [IHle IHeq]].
  - split; [reflexivity |]. split; [constructor | reflexivity].
  - change (sum_list (map c (k :: keys)))
      with (c k + sum_list (map c keys))%nat.
    change (sum_list (map (λ k, (c k * c k)%nat) (k :: keys)))
      with (c k * c k + sum_list (map (λ k, (c k * c k)%nat) keys))%nat.
    split; [nia |]. rewrite Forall_cons, <- IHeq. nia.
Qed.

Lemma Qsum_weights (c : Z → nat) (n : Q) (keys : list Z) :
  Qsum (map (λ k, inject_Z (Z.of_nat (c k)) * (inject_Z (Z.of_nat (c k)) / n)) keys)
  == inject_Z (Z.of_nat (sum_list (map (λ k, (c k * c k)%nat) keys))) / n.
Proof.
  induction keys as [| k keys IH].
  - simpl. unfold Qdiv. ring.
  - cbn [map sum_list Qsum foldr].
    change (foldr Qplus 0 ?l) with (Qsum l). rewrite IH.
    unfold id. rewrite Nat2Z.inj_add, Nat2Z.inj_mul, inject_Z_plus, inject_Z_mult.
    unfold Qdiv. ring.
Qed.

(** X7.  The objective the method builds adds one term per draw, each weighted
    by the table entry of the drawn demand.  A demand drawn [k] times out
    of [n] therefore carries the weight [k*k/n], not its probability
    [k/n]; the weights sum to 1 exactly when no demand was drawn twice. *)
Theorem vendor_objective_counts_repeated_draws_twice (n : nat)
    (uniform : list Q) :
  (1 ≤ n)%nat → length uniform = n →
  ∃ v m,
    NewsVendorSampling.__init__ n uniform = Ok v ∧
    NewsVendorSamplingModel.build_model v = Ok m ∧
    (∀ rho,
       eval rho (NewsVendorSamplingModel.model_obj m)
       == rho (V "x" []) * 10
          - Qsum (map (λ d, sampled_weight (NewsVendorSampling.demand v) n d
                            * (rho (V "y" (NewsVendorSamplingModel.demand_index d)) * 25
                               + rho (V "w" (NewsVendorSamplingModel.demand_index d)) * 5))
                      (NewsVendorSampling.distinct_sorted
                         (NewsVendorSampling.demand v)))) ∧
    (Qsum (map (sampled_weight (NewsVendorSampling.demand v) n)
               (NewsVendorSampling.distinct_sorted (NewsVendorSampling.demand v)))
     == 1
     ↔ NoDup (NewsVendorSampling.demand v)).
Proof.
  intros Hn Hlen.
  destruct (vendor_created n uniform Hn) as (v & Hv & Hd & Hc & Hq & Hr & Hp).
  set (demand := map around uniform) in *.
  set (pr := λ d, inject_Z (Z.of_nat (count_occ Z.eq_dec demand d))
                  / inject_Z (Z.of_nat n)).
  assert (Hidx : ∀ d, d ∈ demand →
            NewsVendorSamplingModel.demand_index d
            ∈ map NewsVendorSamplingModel.demand_index demand).
  { intros d Hin. apply list_elem_of_fmap. by exists d. }
  assert (Hget : ∀ d, d ∈ demand →
            NewsVendorSamplingModel.table_get (NewsVendorSampling.p v) d
            = Ok (pr d)).
  { intros d Hin. unfold NewsVendorSamplingModel.table_get. by rewrite Hp. }
  exists v. eexists. split; [exact Hv |].
  unfold NewsVendorSamplingModel.build_model. cbv zeta. rewrite Hd, Hq, Hr, Hc.
  fold demand.
  split.
  { eapply bind_Ok_intro.
    { apply (mapM_total _
        (λ d, Mul (Mul (Num (- pr d))
                       (Var (V "y" (NewsVendorSamplingModel.demand_index d))))
                  (Num 25))).
      intros d Hin. rewrite (Hget d Hin). cbn [mbind result_bind].
      rewrite getvar_in by (apply Hidx, Hin). reflexivity. }
    eapply bind_Ok_intro.
    { apply (mapM_total _
        (λ d, Mul (Mul (Num (- pr d))
                       (Var (V "w" (NewsVendorSamplingModel.demand_index d))))
                  (Num 5))).
      intros d Hin. rewrite (Hget d Hin). cbn [mbind result_bind].
      rewrite getvar_in by (apply Hidx, Hin). reflexivity. }
    eapply bind_Ok_intro.
    { apply (mapM_total _
        (λ d, (NewsVendorSamplingModel.demand_index d,
               Row (Var (V "y" (NewsVendorSamplingModel.demand_index d))) Le
                   (Num (inject_Z d))))).
      intros d Hin. rewrite getvar_in by (apply Hidx, Hin). reflexivity. }
    eapply bind_Ok_intro.
    { apply (mapM_total _
        (λ d, (NewsVendorSamplingModel.demand_index d,
               Row (Add (Var (V "y" (NewsVendorSamplingModel.demand_index d)))
                        (Var (V "w" (NewsVendorSamplingModel.demand_index d))))
                   Le (Var (V "x" []))))).
      intros d Hin. rewrite getvar_in by (apply Hidx, Hin).
      cbn [mbind result_bind]. rewrite getvar_in by (apply Hidx, Hin).
      reflexivity. }
    reflexivity. }
  cbn [NewsVendorSamplingModel.model_obj].
  destruct (distinct_sorted_spec demand) as [Hnd Hin].
  split.
  - intros rho. cbn [eval]. rewrite !eval_py_sum, !map_map. cbn [eval].
    rewrite (Qsum_grouped _ demand _ Hnd Hin).
    rewrite (Qsum_grouped (λ d, - pr d * rho (V "w" _) * 5) demand _ Hnd Hin).
    unfold Qminus. rewrite <- Qplus_assoc. apply Qplus_comp; [reflexivity |].
    rewrite <- Qsum_plus.
    rewrite <- (Qsum_scale (-1%Q)).
    apply Qsum_map_ext. intros d _. unfold sampled_weight, pr. fold demand.
    unfold Qdiv. ring.
  - unfold sampled_weight. fold demand.
    rewrite (Qsum_weights (count_occ Z.eq_dec demand)).
    pose proof (count_sum demand _ Hnd Hin) as Hsum.
    destruct (sum_squares (count_occ Z.eq_dec demand)
                (NewsVendorSampling.distinct_sorted demand)) as [_ Hsq].
    assert (Hlen' : length demand = n) by (unfold demand; by rewrite length_map).
    assert (0 < inject_Z (Z.of_nat n)) as Hn0.
    { change 0 with (inject_Z 0). rewrite <- Zlt_Qlt. lia. }
    assert (Hnodup : NoDup demand
                     ↔ Forall (λ k, count_occ Z.eq_dec demand k ≤ 1)%nat
                              (NewsVendorSampling.distinct_sorted demand)).
    { rewrite NoDup_ListNoDup, (NoDup_count_occ Z.eq_dec), Forall_forall. split.
      - intros H k _. apply H.
      - intros H k. destruct (decide (k ∈ demand)) as [Hk | Hk].
        + apply H, distinct_sorted_elem_of, Hk.
        + rewrite list_elem_of_In in Hk.
          apply (count_occ_not_In Z.eq_dec) in Hk. lia. }
    rewrite Hnodup, <- Hsq, Hsum, Hlen'. split.
    + intros H.
      assert (inject_Z (Z.of_nat (sum_list (map (λ k, (count_occ Z.eq_dec demand k
                                    * count_occ Z.eq_dec demand k)%nat)
                              (NewsVendorSampling.distinct_sorted demand))))
              == inject_Z (Z.of_nat n)) as H'.
      { rewrite <- (Qmult_1_l (inject_Z (Z.of_nat n))), <- H.
        field. intros H0. rewrite H0 in Hn0. by apply Qlt_irrefl in Hn0. }
      apply (proj1 (inject_Z_injective _ _)) in H'. lia.
    + intros ->. apply Qmult_inv_r.
      intros H0. rewrite H0 in Hn0. by apply Qlt_irrefl in Hn0.
Qed.

Lemma vendor_objective_counts_repeated_draws_twice_witness :
  ∃ v m,
    NewsVendorSampling.__init__ 2 [50.2; 50.4] = Ok v ∧
    NewsVendorSamplingModel.build_model v = Ok m ∧
    ¬ Qsum (map (sampled_weight (NewsVendorSampling.demand v) 2)
                (NewsVendorSampling.distinct_sorted (NewsVendorSampling.demand v)))
      == 1.
Proof.
  destruct (vendor_objective_counts_repeated_draws_twice 2 [50.2; 50.4])
    as (v & m & Hv & Hm & _ & Hw); [lia | reflexivity |].
  exists v, m. split; [exact Hv |]. split; [exact Hm |].
  intros H. apply Hw in H. vm_compute in Hv. injection Hv as <-.
  cbn in H. apply NoDup_cons in H as [H _]. apply H. constructor.
Defined.

(** ** The creator of the binned scenarios *)





Section Creator.

Variable norm_cdf : Q → Q.
Variable truncnorm_rvs : Q → Q → Q.
Hypothesis cdf_monotone : ∀ a b, a <= b → norm_cdf a <= norm_cdf b.
Hypothesis cdf_spread :
  norm_cdf (FarmerNScenariosPH.mu
            - FarmerNScenariosPH.z * FarmerNScenariosPH.sigma)
  < norm_cdf (FarmerNScenariosPH.mu
              + FarmerNScenariosPH.z * FarmerNScenariosPH.sigma).


End Creator.


(** ** When the deterministic builder returns *)

Lemma mapM_Ok_elem {A B : Type} (f : A → result B) (l : list A) (k : list B) :
  mapM f l = Ok k → ∀ a, a ∈ l → ∃ b, f a = Ok b.
Proof.
  intros H. apply mapM_Ok in H.
  induction H as [| a b l k Hab _ IH]; intros c Hc; [inversion Hc |].
  apply elem_of_cons in Hc as [-> | Hc]; eauto.
Qed.

Lemma elem_of_singletons (c : string) (l : list string) :
  [c] ∈ singletons l ↔ c ∈ l.
Proof.
  unfold singletons. rewrite list_elem_of_fmap. split.
  - by intros (c' & [= ->] & Hc).
  - intros Hc. by exists c.
Qed.

Lemma getitem_is_Some (d : gmap string Q) (k : string) (v : Q) :
  getitem d k = Ok v → is_Some (d !! k).
Proof. unfold getitem. destruct (d !! k); [by eexists | discriminate]. Qed.

Lemma raises_only_impl {A : Type} (P R : string → Prop) (m : result A) :
  (∀ e, P e → R e) → raises_only P m → raises_only R m.
Proof. intros HPR Hm e He. by apply HPR, Hm. Qed.

Lemma raises_KeyError_getitem {A : Type} (d : gmap string A) (k : string) :
  raises_only (λ e, e = "KeyError") (getitem d k).
Proof.
  intros exn. unfold getitem. destruct (d !! k); [discriminate |].
  by intros [= <-].
Qed.

Lemma raises_KeyError_getvar (name : string) (idx : list (list string))
    (key : list string) :
  raises_only (λ e, e = "KeyError") (getvar name idx key).
Proof.
  intros exn. unfold getvar. destruct (decide (key ∈ idx)); [discriminate |].
  by intros [= <-].
Qed.

Ltac key_error_step :=
  first
    [ apply raises_only_Ok
    | apply raises_KeyError_getitem
    | apply raises_KeyError_getvar
    | apply raises_only_mapM; intros
    | apply raises_only_bind; [| intros ] ].

Lemma build_deterministic_model_KeyError (s : Farmer3Scenarios.Farmer) :
  raises_only (λ e, e = "KeyError") (Farmer3Scenarios.build_deterministic_model s).
Proof.
  unfold Farmer3Scenarios.build_deterministic_model. repeat key_error_step.
Qed.

(** X9.  The builder returns a model exactly when the attributes of the
    scenario fit together; in every other case with at least one
    plantable crop it stops with [KeyError], whichever entry is the
    missing one. *)
Theorem deterministic_builder_returns_iff_consistent
    (s : Farmer3Scenarios.Farmer) :
  (returns (Farmer3Scenarios.build_deterministic_model s)
   ↔ consistent_template s) ∧
  (¬ consistent_template s → Farmer3Scenarios.planting_crops s ≠ [] →
   Farmer3Scenarios.build_deterministic_model s = Raise "KeyError").
Proof.
  assert (Hiff : returns (Farmer3Scenarios.build_deterministic_model s)
                 ↔ consistent_template s).
  { split.
    - intros [m H]. unfold Farmer3Scenarios.build_deterministic_model in H.
      cbv zeta in H.
      apply bind_Ok in H as (planting & Hplanting & H).
      apply bind_Ok in H as (selling & Hselling & H).
      apply bind_Ok in H as (purchasing & Hpurchasing & H).
      apply bind_Ok in H as (acres & _ & H).
      apply bind_Ok in H as (minreq & Hminreq & H).
      apply bind_Ok in H as (wf & Hwf & H).
      apply bind_Ok in H as (wu & Hwu & H).
      apply bind_Ok in H as (yld & Hyld & H).
      apply bind_Ok in H as (xb & Hxb & _).
      unfold consistent_template.
      split; [| split; [| split; [| split; [| repeat split]]]].
      + intros c Hc.
        destruct (mapM_Ok_elem _ _ _ Hplanting c Hc) as [t Ht].
        repeat bind_inv Ht. eapply getitem_is_Some; eassumption.
      + intros c Hc.
        destruct (mapM_Ok_elem _ _ _ Hselling c Hc) as [t Ht].
        repeat bind_inv Ht. eapply getitem_is_Some; eassumption.
      + intros c Hc.
        destruct (mapM_Ok_elem _ _ _ Hpurchasing c Hc) as [t Ht].
        repeat bind_inv Ht. eapply getitem_is_Some; eassumption.
      + intros c Hc.
        destruct (mapM_Ok_elem _ _ _ Hminreq c Hc) as [t Ht].
        apply bind_Ok in Ht as (xv & Hxv & Ht).
        apply bind_Ok in Ht as (y1 & Hy1 & Ht).
        apply bind_Ok in Ht as (yv & Hyv & Ht).
        apply bind_Ok in Ht as (wv & Hwv & Ht).
        apply bind_Ok in Ht as (req & Hreq & _).
        apply getvar_Ok in Hxv as [_ Hxv]. apply getvar_Ok in Hyv as [_ Hyv].
        apply getvar_Ok in Hwv as [_ Hwv].
        apply elem_of_singletons in Hxv, Hyv, Hwv.
        apply getitem_is_Some in Hy1, Hreq. by repeat split.
      + apply getvar_Ok in Hwf as [_ Hwf]. by apply elem_of_singletons.
      + apply getvar_Ok in Hwu as [_ Hwu]. by apply elem_of_singletons.
      + eapply getitem_is_Some; eassumption.
      + apply getvar_Ok in Hxb as [_ Hxb]. by apply elem_of_singletons.
    - intros (Hpl & Hse & Hpu & Hreq & Hbf & Hbu & Hby & Hbx).
      unfold Farmer3Scenarios.build_deterministic_model. cbv zeta.
      apply returns_bind; [| intros planting].
      { apply returns_mapM. intros c Hc.
        apply returns_bind; [apply returns_getvar, elem_of_singletons, Hc |].
        intros v. apply returns_bind; [apply returns_getitem, Hpl, Hc |].
        intros k. apply returns_Ok. }
      apply returns_bind; [| intros selling].
      { apply returns_mapM. intros c Hc.
        apply returns_bind; [apply returns_getvar, elem_of_singletons, Hc |].
        intros v. apply returns_bind; [apply returns_getitem, Hse, Hc |].
        intros k. apply returns_Ok. }
      apply returns_bind; [| intros purchasing].
      { apply returns_mapM. intros c Hc.
        apply returns_bind; [apply returns_getvar, elem_of_singletons, Hc |].
        intros v. apply returns_bind; [apply returns_getitem, Hpu, Hc |].
        intros k. apply returns_Ok. }
      apply returns_bind; [| intros acres].
      { apply returns_mapM. intros c Hc.
        apply returns_getvar, elem_of_singletons, Hc. }
      apply returns_bind; [| intros minreq].
      { apply returns_mapM. intros c Hc.
        destruct (Hreq c Hc) as (H1 & H2 & H3 & H4 & H5).
        apply returns_bind; [apply returns_getvar, elem_of_singletons, H1 |].
        intros xv. apply returns_bind; [apply returns_getitem, H2 |].
        intros yld. apply returns_bind;
          [apply returns_getvar, elem_of_singletons, H3 |].
        intros yv. apply returns_bind;
          [apply returns_getvar, elem_of_singletons, H4 |].
        intros wv. apply returns_bind; [apply returns_getitem, H5 |].
        intros req. apply returns_Ok. }
      apply returns_bind; [apply returns_getvar, elem_of_singletons, Hbf |].
      intros wf. apply returns_bind;
        [apply returns_getvar, elem_of_singletons, Hbu |].
      intros wu. apply returns_bind; [apply returns_getitem, Hby |].
      intros yld. apply returns_bind;
        [apply returns_getvar, elem_of_singletons, Hbx |].
      intros xb. apply returns_bind;
        [apply returns_getvar, elem_of_singletons, Hbf |].
      intros wq. apply returns_Ok. }
  split; [exact Hiff |].
  intros Hnot _.
  destruct (Farmer3Scenarios.build_deterministic_model s) as [m | e] eqn:E.
  - exfalso. apply Hnot, Hiff. by exists m.
  - by rewrite (build_deterministic_model_KeyError s e E).
Qed.

Lemma deterministic_builder_returns_iff_consistent_witness :
  ∃ s g, Farmer3Scenarios.__init__ "fair" None = Ok (s, g) ∧
         consistent_template s ∧
         Farmer3Scenarios.build_deterministic_model (without_yields s)
         = Raise "KeyError".
Proof.
  do 2 eexists. split; [reflexivity |].
  match goal with
  | |- consistent_template ?s0 ∧ _ => set (s := s0)
  end.
  split.
  - apply (proj1 (proj1 (deterministic_builder_returns_iff_consistent s))).
    eexists. reflexivity.
  - apply (proj2 (deterministic_builder_returns_iff_consistent
                    (without_yields s))).
    + intros (_ & _ & _ & _ & _ & _ & [y Hy] & _).
      cbn in Hy. rewrite lookup_empty in Hy. discriminate Hy.
    + discriminate.
Defined.

(** ** Building again *)

Lemma rebuilding_on_the_returned_object_witness :
  ∃ self f1 f2,
    FarmerExtensiveForm.__init__ (FarmerExtensiveForm.WStr "fair") = Ok self ∧
    FarmerExtensiveForm.build_deterministic_model self = Ok f1 ∧
    FarmerExtensiveForm.build_deterministic_model f1 = Ok f2 ∧
    FarmerExtensiveForm.deterministic_model f2
    = FarmerExtensiveForm.deterministic_model f1.
Proof.
  do 3 eexists. split; [reflexivity |].
  match goal with
  | |- FarmerExtensiveForm.build_deterministic_model ?s = _ ∧ _ =>
      set (self := s)
  end.
  split; [reflexivity |].
  match goal with
  | |- FarmerExtensiveForm.build_deterministic_model ?f = _ ∧ _ =>
      set (f1 := f)
  end.
  split; [reflexivity |].
  exact (rebuilding_on_the_returned_object self f1 _ eq_refl eq_refl).
Defined.

(** ** The first stage of the scenario models *)

(** X11.  Whatever the labels and whatever was created before, two models the
    creator returns agree on everything but the yields: they have the
    same variable groups, the same named cost expressions (the planting
    cost handed to the root node among them), the same objective, the
    same total-acreage and quota rows, and the probability 1/3. *)
Theorem scenario_models_share_first_stage (w1 w2 : string)
    (g1 g2 g1' g2' : Farmer3Scenarios.globals) (m1 m2 : Model) :
  Farmer3Scenarios.scenario_creator w1 g1 = Ok (m1, g1') →
  Farmer3Scenarios.scenario_creator w2 g2 = Ok (m2, g2') →
  model_x m1 = model_x m2 ∧ model_w m1 = model_w m2 ∧
  model_y m1 = model_y m2 ∧ model_exprs m1 = model_exprs m2 ∧
  model_obj m1 = model_obj m2 ∧
  head (model_constraints m1) = head (model_constraints m2) ∧
  last (model_constraints m1) = last (model_constraints m2) ∧
  _mpisppy_probability m1 = Some (1.0 / 3) ∧
  _mpisppy_probability m2 = Some (1.0 / 3).
Proof.
  unfold Farmer3Scenarios.scenario_creator, Farmer3Scenarios.__init__.
  intros H1 H2.
  destruct (predict w1 g1) as [p1 |]; [| discriminate H1].
  destruct (predict w2 g2) as [p2 |]; [| discriminate H2].
  cbn [read_name mbind result_bind] in H1, H2.
  apply bind_Ok in H1 as (b1 & Hb1 & H1). injection H1 as <- <-.
  apply bind_Ok in H2 as (b2 & Hb2 & H2). injection H2 as <- <-.
  cbn [model_x model_w model_y model_exprs model_obj model_constraints
       _mpisppy_probability].
  injection Hb1 as <-. injection Hb2 as <-.
  repeat split; reflexivity.
Qed.

Lemma scenario_models_share_first_stage_witness :
  ∃ m1 m2 g1 g2,
    Farmer3Scenarios.scenario_creator "good" None = Ok (m1, g1) ∧
    Farmer3Scenarios.scenario_creator "bad" g1 = Ok (m2, g2) ∧
    model_obj m1 = model_obj m2 ∧ model_exprs m1 = model_exprs m2.
Proof.
  do 4 eexists. split; [reflexivity |]. split; [reflexivity |].
  match goal with
  | |- model_obj ?a = model_obj ?b ∧ _ =>
      pose proof (scenario_models_share_first_stage "good" "bad" None
                    (Some 1.2) _ _ a b eq_refl eq_refl)
        as (_ & _ & _ & He & Ho & _)
  end.
  split; [exact Ho | exact He].
Defined.

(** ** The hand-written fair-weather model *)

(** X12.  The model written out crop by crop in
    examples/farmer-scenario-representation.py is the fair-weather
    instance of the parameterized builder: the same variables, an
    objective of the same value at every assignment, and the same
    feasible region. *)
Theorem written_out_model_is_the_fair_weather_model :
  ∃ f f' m g g' m',
    FarmerScenarioRepresentation.__init__ = Ok f ∧
    FarmerScenarioRepresentation.build_deterministic_model f = Ok f' ∧
    FarmerScenarioRepresentation.deterministic_model f' = Some m ∧
    FarmerExtensiveForm.__init__ (FarmerExtensiveForm.WStr "fair") = Ok g ∧
    FarmerExtensiveForm.build_deterministic_model g = Ok g' ∧
    FarmerExtensiveForm.deterministic_model g' = Some m' ∧
    model_vars m = model_vars m' ∧
    (∀ rho, eval rho (model_obj m) == eval rho (model_obj m')) ∧
    (∀ rho, feasible m rho ↔ feasible m' rho).
Proof.
  do 6 eexists.
  split; [reflexivity |]. split; [reflexivity |]. split; [reflexivity |].
  split; [reflexivity |]. split; [reflexivity |]. split; [reflexivity |].
  split; [reflexivity |]. split.
  - intros rho. cbn. ring.
  - intros rho. unfold feasible.
    apply and_iff_compat_l.
    unfold model_rows. cbn [model_constraints mbind list_bind scalar con_rows app].
    rewrite !Forall_cons, !Forall_nil. unfold row_holds.
    cbn.
    split; intros (H1 & H2 & H3 & H4 & H5 & _); repeat split; lra.
Qed.
